(** * HR assistant: screening pipeline, guardrail, routing and onboarding

    A shallow embedding of the Python sources

    - [Agents/guardrails.py]            ([sanitize_input]),
    - [main.py]                         (query routing, bulk onboarding upload),
    - [Agents/resume_screening_app.py]  (evaluator, two-pass pipeline, export),
    - [Agents/onboarding_agent.py]      ([onboard_selected_candidates]),

    and the properties of the specification stated over it.

    Conventions.  A Python [str] is a Rocq [string], one [ascii] per
    character: the characters are the code points 0 to 255 (Latin-1), and
    [str.lower], [str.strip] and the white-space test are Python's on these.
    [str.upper] can leave this alphabet or give two letters for one, so its
    result is a list of code points.  A literal of the sources with a
    character beyond U+00FF is written as its UTF-8 bytes; such literals are
    messages, which the model only concatenates.  A Python exception is a
    value of [exn]; code that may raise returns a sum or runs in the monad
    [Effects.M].  Calls into the language-model provider, the document
    readers and SMTP are oracles over an abstract [World]; [json.loads],
    [float.__repr__], [re.search] and [str.format] are parameters.  Calls
    that only draw on the page (spinners, progress bars, messages) are left
    out. *)

From Stdlib Require Import ZArith NArith Ascii String List Bool Lia Floats.
From Stdlib Require Import Sorting.Sorted Sorting.Permutation.
From Stdlib Require DecimalString.
From stdpp Require Import base tactics option list strings.

Local Open Scope Z_scope.

Set Warnings "-register-all,-abstract-large-number,-inexact-float".

#[local] Arguments String.append !_ _ / : simpl nomatch.

(** ** Python values *)

(** The exceptions the sources tell apart.  [JSONDecodeError] is a subclass
    of [ValueError]; [Exception] stands for every other subclass of Python's
    [Exception].  The payload is [str(e)]. *)
Inductive exn : Type :=
| TypeError (msg : string)
| ValueError (msg : string)
| JSONDecodeError (msg : string)
| AttributeError (msg : string)
| KeyError (msg : string)
| Exception (msg : string).

Definition str_of_exn (e : exn) : string :=
  match e with
  | TypeError m | ValueError m | JSONDecodeError m
  | AttributeError m | KeyError m | Exception m => m
  end.

Definition is_TypeError (e : exn) : bool :=
  match e with TypeError _ => true | _ => false end.

(** [except ValueError] also catches the subclass. *)
Definition is_ValueError (e : exn) : bool :=
  match e with ValueError _ | JSONDecodeError _ => true | _ => false end.

Definition is_JSONDecodeError (e : exn) : bool :=
  match e with JSONDecodeError _ => true | _ => false end.

(** ** Strings *)

Module PyStr.

Definition code (c : ascii) : N := N_of_ascii c.

(** [str.lower], character by character: A to Z, and the capital letters
    of Latin-1, U+00C0 to U+00DE without the multiplication sign U+00D7, go
    32 up; every other character stays. *)
Definition lower_char (c : ascii) : ascii :=
  if (((65 <=? code c) && (code c <=? 90)) ||
      ((192 <=? code c) && (code c <=? 222) && negb (code c =? 215)))%N
  then ascii_of_N (code c + 32) else c.

Fixpoint lower (s : string) : string :=
  match s with
  | EmptyString => EmptyString
  | String c s' => String (lower_char c) (lower s')
  end.

(** The sharp s, U+00DF. *)
Definition sharp_s : ascii := ascii_of_N 223.

(** [str.upper] of one character, as code points: a to z and the small
    letters of Latin-1, U+00E0 to U+00FE without the division sign U+00F7, go
    32 down; the sharp s gives SS; the micro sign and y with diaeresis go to
    U+039C and U+0178; every other character stays. *)
Definition upper_char (c : ascii) : list N :=
  let n := code c in
  if ((97 <=? n) && (n <=? 122))%N then [(n - 32)%N]
  else if (n =? 181)%N then [924%N]
  else if (n =? 223)%N then [83%N; 83%N]
  else if ((224 <=? n) && (n <=? 254) && negb (n =? 247))%N then [(n - 32)%N]
  else if (n =? 255)%N then [376%N]
  else [n].

Fixpoint upper (s : string) : list N :=
  match s with
  | EmptyString => []
  | String c s' => upper_char c ++ upper s'
  end.

(** The code points of a text. *)
Fixpoint points (s : string) : list N :=
  match s with
  | EmptyString => []
  | String c s' => code c :: points s'
  end.

(** [==] on two texts given by their code points. *)
Fixpoint eqb_points (a b : list N) : bool :=
  match a, b with
  | [], [] => true
  | x :: a', y :: b' => (x =? y)%N && eqb_points a' b'
  | _, _ => false
  end.

(** [str.isspace] on one character: TAB, LF, VT, FF, CR, the four
    separators FS, GS, RS, US, the blank, NEL (U+0085) and the no-break
    space (U+00A0). *)
Definition isspace (c : ascii) : bool :=
  (((9 <=? code c) && (code c <=? 13)) ||
   ((28 <=? code c) && (code c <=? 32)) ||
   (code c =? 133) || (code c =? 160))%N.

Fixpoint lstrip (s : string) : string :=
  match s with
  | EmptyString => EmptyString
  | String c s' => if isspace c then lstrip s' else s
  end.

(** [rstrip] keeps a character when it is not a blank or when something
    is kept after it. *)
Fixpoint rstrip (s : string) : string :=
  match s with
  | EmptyString => EmptyString
  | String c s' =>
      match rstrip s' with
      | EmptyString => if isspace c then EmptyString else String c EmptyString
      | r => String c r
      end
  end.

Definition strip (s : string) : string := rstrip (lstrip s).

(** Truth value of a [str]: non-empty. *)
Definition truthy (s : string) : bool :=
  match s with EmptyString => false | _ => true end.

Fixpoint startswith (p s : string) : bool :=
  match p, s with
  | EmptyString, _ => true
  | String a p', String b s' => Ascii.eqb a b && startswith p' s'
  | String _ _, EmptyString => false
  end.

(** [needle in hay]. *)
Fixpoint contains (needle hay : string) : bool :=
  startswith needle hay ||
  match hay with
  | EmptyString => false
  | String _ hay' => contains needle hay'
  end.

Fixpoint endswith (suf s : string) : bool :=
  String.eqb s suf ||
  match s with
  | EmptyString => false
  | String _ s' => endswith suf s'
  end.

(** [s[:n]]. *)
Fixpoint str_take (n : nat) (s : string) : string :=
  match n, s with
  | S n', String c s' => String c (str_take n' s')
  | _, _ => EmptyString
  end.

(** [s.split(sep)[0]] for a one-character separator: the text before its
    first occurrence (all of [s] when there is none). *)
Fixpoint split_head (sep : ascii) (s : string) : string :=
  match s with
  | EmptyString => EmptyString
  | String c s' => if Ascii.eqb c sep then EmptyString else String c (split_head sep s')
  end.

(** [s.replace(a, b)] for one-character [a] and [b]. *)
Fixpoint replace_char (a b : ascii) (s : string) : string :=
  match s with
  | EmptyString => EmptyString
  | String c s' => String (if Ascii.eqb c a then b else c) (replace_char a b s')
  end.

Definition all_space (s : string) : Prop :=
  Forall (fun c => isspace c = true) (list_ascii_of_string s).

Definition head_char (s : string) : option ascii :=
  match s with EmptyString => None | String c _ => Some c end.

Fixpoint last_char (s : string) : option ascii :=
  match s with
  | EmptyString => None
  | String c EmptyString => Some c
  | String _ s' => last_char s'
  end.

(** *** Facts *)

Lemma str_app_nil_r (s : string) : s +:+ "" = s.
Proof. induction s as [|c s IH]; simpl; [done|by rewrite IH]. Qed.

Lemma str_app_assoc (a b c : string) : (a +:+ b) +:+ c = a +:+ (b +:+ c).
Proof. induction a as [|x a IH]; simpl; [done|by rewrite IH]. Qed.

Lemma lower_app (a b : string) : lower (a +:+ b) = lower a +:+ lower b.
Proof. induction a as [|x a IH]; simpl; [done|by rewrite IH]. Qed.

Lemma lower_length (s : string) : String.length (lower s) = String.length s.
Proof. induction s as [|c s IH]; simpl; [done|by rewrite IH]. Qed.

(** A split of [lower s] comes from a split of [s]. *)
Lemma lower_app_inv (s a b : string) :
  lower s = a +:+ b ->
  exists s1 s2, s = s1 +:+ s2 /\ lower s1 = a /\ lower s2 = b.
Proof.
  revert a; induction s as [|c s IH]; intros a H.
  - destruct a; simpl in H; [|discriminate].
    exists ""%string, ""%string. by rewrite <- H.
  - destruct a as [|x a]; simpl in H.
    + exists ""%string, (String c s). by rewrite <- H.
    + injection H as Hc Hs. destruct (IH _ Hs) as (s1 & s2 & -> & H1 & H2).
      exists (String c s1), s2. simpl. by rewrite Hc, H1, H2.
Qed.

Lemma startswith_spec (p s : string) :
  startswith p s = true <-> exists post, s = p +:+ post.
Proof.
  revert s; induction p as [|a p IH]; intros s; simpl.
  - split; [intros _; by exists s | done].
  - destruct s as [|b s].
    + split; [done | intros [post H]; discriminate].
    + rewrite andb_true_iff, IH. split.
      * intros [Hab [post ->]]. apply Ascii.eqb_eq in Hab as ->. by exists post.
      * intros [post H]. injection H as -> ->. split; [apply Ascii.eqb_refl | by exists post].
Qed.

Lemma contains_spec (needle hay : string) :
  contains needle hay = true <-> exists pre post, hay = pre +:+ needle +:+ post.
Proof.
  induction hay as [|c hay IH]; simpl.
  - rewrite orb_false_r, startswith_spec. split.
    + intros [post H]. by exists ""%string, post.
    + intros (pre & post & H). destruct pre; [by exists post | discriminate].
  - rewrite orb_true_iff, startswith_spec, IH. split.
    + intros [[post H] | (pre & post & H)].
      * by exists ""%string, post.
      * exists (String c pre), post. simpl. by rewrite H.
    + intros (pre & post & H). destruct pre as [|x pre]; simpl in H.
      * left. by exists post.
      * right. injection H as _ H. by exists pre, post.
Qed.

Lemma str_take_length (n : nat) (s : string) : (String.length (str_take n s) <= n)%nat.
Proof.
  revert s; induction n as [|n IH]; intros [|c s]; simpl; try lia.
  specialize (IH s). lia.
Qed.

Lemma str_take_idemp (n : nat) (s : string) : str_take n (str_take n s) = str_take n s.
Proof.
  revert s; induction n as [|n IH]; intros [|c s]; simpl; try done.
  by rewrite IH.
Qed.

Lemma str_take_app (n : nat) (s t : string) :
  String.length s = n -> str_take n (s +:+ t) = s.
Proof.
  revert s; induction n as [|n IH]; intros [|c s]; simpl; try done.
  intros [= H]. by rewrite IH.
Qed.

Lemma eqb_points_eq (a b : list N) : eqb_points a b = true <-> a = b.
Proof.
  revert b; induction a as [|x a IH]; intros [|y b]; simpl; try done.
  rewrite andb_true_iff, N.eqb_eq, IH. split; [by intros [-> ->] | by intros [= -> ->]].
Qed.

(** *** Which texts [str.upper] takes to PASS *)

Lemma upper_char_P (c : ascii) (rest l : list N) :
  upper_char c ++ rest = 80%N :: l -> lower_char c = "p"%char /\ rest = l.
Proof.
  destruct c as [[] [] [] [] [] [] [] []]; cbn; intros H; try discriminate H;
    injection H as ->; split; reflexivity.
Qed.

Lemma upper_char_A (c : ascii) (rest l : list N) :
  upper_char c ++ rest = 65%N :: l -> lower_char c = "a"%char /\ rest = l.
Proof.
  destruct c as [[] [] [] [] [] [] [] []]; cbn; intros H; try discriminate H;
    injection H as ->; split; reflexivity.
Qed.

Lemma upper_char_S (c : ascii) (rest l : list N) :
  upper_char c ++ rest = 83%N :: l ->
  (lower_char c = "s"%char /\ rest = l) \/ (c = sharp_s /\ 83%N :: rest = l).
Proof.
  destruct c as [[] [] [] [] [] [] [] []]; cbn; intros H; try discriminate H;
    injection H as ->; first [left; split; reflexivity | right; split; reflexivity].
Qed.

Lemma upper_nil (s : string) : upper s = [] -> s = ""%string.
Proof.
  destruct s as [|c s]; [done|]. simpl.
  destruct c as [[] [] [] [] [] [] [] []]; cbn; intros H; discriminate H.
Qed.

Lemma lower_char_p (c : ascii) : lower_char c = "p"%char -> upper_char c = [80%N].
Proof. destruct c as [[] [] [] [] [] [] [] []]; cbn; intros H; try discriminate H; reflexivity. Qed.

Lemma lower_char_a (c : ascii) : lower_char c = "a"%char -> upper_char c = [65%N].
Proof. destruct c as [[] [] [] [] [] [] [] []]; cbn; intros H; try discriminate H; reflexivity. Qed.

Lemma lower_char_s (c : ascii) : lower_char c = "s"%char -> upper_char c = [83%N].
Proof. destruct c as [[] [] [] [] [] [] [] []]; cbn; intros H; try discriminate H; reflexivity. Qed.

Lemma lower_char_sharp_s (c : ascii) : lower_char c = sharp_s -> c = sharp_s.
Proof. destruct c as [[] [] [] [] [] [] [] []]; cbn; intros H; try discriminate H; reflexivity. Qed.

(** PASS with the sharp s for its two last letters. *)
Definition pass_sharp : string := String "p" (String "a" (String sharp_s "")).

(** [str.upper] gives PASS on the texts that read pass in lower case, and
    on those that read pa and a sharp s. *)
Lemma upper_PASS (s : string) :
  upper s = points "PASS" <-> lower s = "pass"%string \/ lower s = pass_sharp.
Proof.
  split.
  - destruct s as [|c1 s]; [done|]. simpl.
    intros [H1 H]%upper_char_P. destruct s as [|c2 s]; [done|]. simpl in H.
    apply upper_char_A in H as [H2 H]. destruct s as [|c3 s]; [done|]. simpl in H.
    apply upper_char_S in H as [[H3 H] | [-> H]].
    + left. destruct s as [|c4 s]; [done|]. simpl in H.
      apply upper_char_S in H as [[H4 H] | [_ H]]; [|done].
      apply upper_nil in H as ->. simpl. by rewrite H1, H2, H3, H4.
    + right. injection H as H%upper_nil. subst s. simpl. by rewrite H1, H2.
  - intros [H|H].
    + destruct s as [|c1 [|c2 [|c3 [|c4 [|c5 s]]]]]; try done.
      injection H as H1%lower_char_p H2%lower_char_a H3%lower_char_s H4%lower_char_s.
      simpl. by rewrite H1, H2, H3, H4.
    + destruct s as [|c1 [|c2 [|c3 [|c4 s]]]]; try done.
      injection H as H1%lower_char_p H2%lower_char_a H3%lower_char_sharp_s.
      simpl. rewrite H1, H2, H3. reflexivity.
Qed.

End PyStr.

(** ** [Agents/guardrails.py] *)

Module Guardrails.
Import PyStr.

Definition banned : list string :=
  ["delete"; "drop"; "sudo"; "hack"; "rm -rf"; "password"; "api_key"].

Definition unsafe_message : string := "⚠️ Unsafe or disallowed input detected.".

(** The [for word in banned] loop: raises at the first hit. *)
Fixpoint scan_banned (words : list string) (text : string) : exn + unit :=
  match words with
  | [] => inr tt
  | word :: rest =>
      if contains (lower word) (lower text)
      then inl (ValueError unsafe_message)
      else scan_banned rest text
  end.

Definition sanitize_input (text : string) : exn + string :=
  match scan_banned banned text with
  | inl e => inl e
  | inr _ => inr (strip text)
  end.

(** *** The property in the words of the specification *)

(** [text] has an occurrence of [word] up to letter case. *)
Definition occurs_ignoring_case (word text : string) : Prop :=
  exists pre mid post,
    text = pre +:+ mid +:+ post /\ lower mid = lower word.

Definition mentions_banned (text : string) : Prop :=
  exists word, In word banned /\ occurs_ignoring_case word text.

(** [s] is [text] without its leading and trailing white space. *)
Definition stripped_of (text s : string) : Prop :=
  exists l r,
    text = l +:+ s +:+ r /\ all_space l /\ all_space r /\
    (forall c, head_char s = Some c -> isspace c = false) /\
    (forall c, last_char s = Some c -> isspace c = false).

End Guardrails.

(** ** [main.py]: the query box *)

Module Router.
Import PyStr Guardrails.

(** [any(k in q for k in keys)]. *)
Definition any_in (keys : list string) (q : string) : bool :=
  existsb (fun k => contains k q) keys.

(** The [if]/[elif] chain that sets [st.session_state.mode]. *)
Definition route (q : string) : string :=
  if any_in ["resume"; "screen"; "candidate"; "cv"] q then "resume"
  else if any_in ["policy"; "leave"; "vacation"; "rules"; "payroll"; "salary"] q then "policy"
  else if any_in ["onboard"; "joining"; "orientation"; "welcome"] q then "onboarding"
  else "unknown".

(** What pressing Submit does: warn and stop, show the guardrail's error
    and stop, or set the mode.  [Uncaught] is an exception that
    [except ValueError] lets through. *)
Inductive submit_outcome : Type :=
| Warned (msg : string)
| Refused (msg : string)
| Uncaught (e : exn)
| ModeSet (mode : string).

Definition on_submit (query : string) : submit_outcome :=
  if negb (truthy (strip query)) then Warned "Please enter a valid query."
  else
    match sanitize_input query with
    | inl e => if is_ValueError e then Refused (str_of_exn e) else Uncaught e
    | inr sanitized_query =>
        let q := lower sanitized_query in
        ModeSet (route q)
    end.

End Router.


(** ** Facts about the guardrail and the query box *)

Module GuardrailFacts.
Import PyStr Guardrails Router.

Lemma all_space_nil : all_space "".
Proof. constructor. Qed.

Lemma all_space_cons (c : ascii) (s : string) :
  isspace c = true -> all_space s -> all_space (String c s).
Proof. intros Hc Hs. by constructor. Qed.

Lemma lstrip_spec (s : string) :
  exists l, s = l +:+ lstrip s /\ all_space l /\
            forall c, head_char (lstrip s) = Some c -> isspace c = false.
Proof.
  induction s as [|c s (l & Hl & Hsp & Hhd)]; simpl.
  - exists ""%string. split; [done|]. split; [apply all_space_nil | done].
  - destruct (isspace c) eqn:Hc.
    + exists (String c l). simpl. rewrite <- Hl.
      split; [done|]. split; [by apply all_space_cons | done].
    + exists ""%string. split; [done|]. split; [apply all_space_nil|].
      intros c' [= <-]. done.
Qed.

Lemma rstrip_spec (s : string) :
  exists r, s = rstrip s +:+ r /\ all_space r /\
            (forall c, last_char (rstrip s) = Some c -> isspace c = false) /\
            (forall c, head_char (rstrip s) = Some c -> head_char s = Some c).
Proof.
  induction s as [|c s (r & Hr & Hsp & Hlast & Hhd)]; simpl.
  - exists ""%string. split; [done|]. split; [apply all_space_nil | done].
  - destruct (rstrip s) as [|d t] eqn:Ht.
    + destruct (isspace c) eqn:Hc.
      * exists (String c r). simpl in Hr. subst r.
        split; [done|]. split; [by apply all_space_cons | done].
      * exists r. simpl in Hr. subst r. split; [done|]. split; [done|].
        split; [by intros c' [= <-] | done].
    + exists r. simpl in *. rewrite <- Hr. split; [done|]. split; [done|].
      split; [|done]. intros c' H. apply Hlast. by destruct t.
Qed.

(** [strip] does remove the white space at both ends, and only that. *)
Lemma strip_spec (text : string) : stripped_of text (strip text).
Proof.
  unfold stripped_of, strip.
  destruct (lstrip_spec text) as (l & Hl & Hlsp & Hhd).
  destruct (rstrip_spec (lstrip text)) as (r & Hr & Hrsp & Hlast & Hkeep).
  exists l, r. split; [by rewrite <- Hr|]. split; [done|]. split; [done|].
  split; [|done]. intros c Hc. apply Hhd. by apply Hkeep.
Qed.

(** The substring test on the lowered texts is an occurrence up to case. *)
Lemma contains_lower_iff (word text : string) :
  contains (lower word) (lower text) = true <-> occurs_ignoring_case word text.
Proof.
  rewrite contains_spec. unfold occurs_ignoring_case. split.
  - intros (pre & post & H).
    apply lower_app_inv in H as (s1 & s2 & -> & H1 & H2).
    apply lower_app_inv in H2 as (s3 & s4 & -> & H3 & H4).
    by exists s1, s3, s4.
  - intros (pre & mid & post & -> & Hmid).
    exists (lower pre), (lower post). by rewrite !lower_app, Hmid.
Qed.

Lemma scan_banned_raises (words : list string) (text : string) :
  (exists e, scan_banned words text = inl e) <->
  (exists word, In word words /\ occurs_ignoring_case word text).
Proof.
  induction words as [|w ws IH]; simpl.
  - split; [intros [e H]; discriminate | intros (w & [] & _)].
  - destruct (contains (lower w) (lower text)) eqn:Hw.
    + split; [|by eexists]. intros _. exists w. split; [by left|].
      by apply contains_lower_iff.
    + rewrite IH. split.
      * intros (w' & Hin & Hocc). exists w'. split; [by right | done].
      * intros (w' & [<- | Hin] & Hocc); [|by exists w'].
        apply contains_lower_iff in Hocc. congruence.
Qed.

Lemma scan_banned_error (words : list string) (text : string) (e : exn) :
  scan_banned words text = inl e -> e = ValueError unsafe_message.
Proof.
  induction words as [|w ws IH]; simpl; [done|].
  destruct (contains (lower w) (lower text)); [by intros [= <-] | done].
Qed.

(** C9.  [sanitize_input] raises exactly when the text has, up to letter
    case, one of the seven banned words as a substring, and what it raises is
    the [ValueError] with the guardrail's message; on every other text it
    returns the text without its leading and trailing white space.  When
    Submit sets a mode, the mode is the router's answer on the lowered
    return value of [sanitize_input], never on the raw query. *)
Theorem sanitize_input_guard (text : string) :
  ((exists e, sanitize_input text = inl e) <-> mentions_banned text) /\
  (forall e, sanitize_input text = inl e -> e = ValueError unsafe_message) /\
  (forall s, sanitize_input text = inr s -> s = strip text /\ stripped_of text s) /\
  (forall mode, on_submit text = ModeSet mode ->
     exists s, sanitize_input text = inr s /\ mode = route (lower s)).
Proof.
  unfold on_submit, sanitize_input, mentions_banned.
  pose proof (scan_banned_raises banned text) as Hiff.
  pose proof (scan_banned_error banned text) as Herr.
  destruct (scan_banned banned text) as [e0|[]] eqn:Hscan.
  - split; [|split; [|split]].
    + rewrite <- Hiff. split; intros _; by eexists.
    + intros e [= <-]. by apply Herr.
    + done.
    + intros mode. destruct (negb _); [done|].
      rewrite (Herr e0 eq_refl). simpl. intros H. discriminate H.
  - split; [|split; [|split]].
    + rewrite <- Hiff. split; intros [e H]; discriminate.
    + done.
    + intros s [= <-]. split; [done | apply strip_spec].
    + intros mode. destruct (negb _); [done|].
      intros [= <-]. by eexists.
Qed.

Example sanitize_blocks_mixed_case :
  sanitize_input "please DROP the table" = inl (ValueError unsafe_message).
Proof. reflexivity. Qed.

Example sanitize_strips :
  sanitize_input "  screen resumes  " = inr "screen resumes"%string.
Proof. reflexivity. Qed.

Example submit_routes_sanitized :
  on_submit "  Screen Resumes " = ModeSet "resume".
Proof. reflexivity. Qed.

End GuardrailFacts.

(** ** More on the guardrail and the query box *)

Module QueryBoxFacts.
Import PyStr Guardrails Router GuardrailFacts.

Lemma lstrip_fixed (s : string) :
  (forall c, head_char s = Some c -> isspace c = false) -> lstrip s = s.
Proof.
  destruct s as [|c s]; simpl; [done|]. intros H. by rewrite (H c eq_refl).
Qed.

Lemma rstrip_fixed (s : string) :
  (forall c, last_char s = Some c -> isspace c = false) -> rstrip s = s.
Proof.
  induction s as [|c s IH]; simpl; [done|]. intros H.
  destruct s as [|d s].
  - simpl. by rewrite (H c eq_refl).
  - rewrite IH by done. done.
Qed.

Lemma rstrip_head (s : string) (c : ascii) :
  head_char (rstrip s) = Some c -> head_char s = Some c.
Proof. destruct (rstrip_spec s) as (r & _ & _ & _ & H). apply H. Qed.

Lemma strip_idemp (s : string) : strip (strip s) = strip s.
Proof.
  destruct (strip_spec s) as (l & r & _ & _ & _ & Hhd & Hlast).
  unfold strip at 1. rewrite (lstrip_fixed (strip s)) by done.
  by apply rstrip_fixed.
Qed.

(** What is banned in a part of a text is banned in the text. *)
Lemma mentions_banned_part (pre mid post : string) :
  mentions_banned mid -> mentions_banned (pre +:+ mid +:+ post).
Proof.
  intros (word & Hin & a & m & b & -> & Hm). exists word. split; [done|].
  exists (pre +:+ a), m, (b +:+ post). split; [|done].
  by rewrite !str_app_assoc.
Qed.

Lemma sanitize_input_cases (text : string) :
  ((exists e, sanitize_input text = inl e) <-> mentions_banned text) /\
  (forall s, sanitize_input text = inr s -> s = strip text).
Proof.
  unfold sanitize_input, mentions_banned.
  pose proof (scan_banned_raises banned text) as Hiff.
  destruct (scan_banned banned text) as [e0|[]].
  - split; [|done]. rewrite <- Hiff. split; intros _; by eexists.
  - split; [|by intros s [= <-]]. rewrite <- Hiff. split; intros [e H]; discriminate.
Qed.

Lemma sanitize_accepts_iff (text : string) :
  sanitize_input text = inr (strip text) <-> ~ mentions_banned text.
Proof.
  destruct (sanitize_input_cases text) as [Hraise Hret]. split.
  - intros H Hb. apply Hraise in Hb as [e He]. congruence.
  - intros Hb. destruct (sanitize_input text) as [e|s] eqn:E.
    + exfalso. apply Hb, Hraise. by exists e.
    + by rewrite (Hret s eq_refl).
Qed.

(** X1.  A text the guardrail has returned passes the guardrail again and
    comes back unchanged. *)
Theorem sanitize_input_idempotent (text s : string) :
  sanitize_input text = inr s -> sanitize_input s = inr s.
Proof.
  intros H. destruct (sanitize_input_cases text) as [_ Hret].
  pose proof (Hret s H) as ->.
  rewrite <- (strip_idemp text) at 2. apply sanitize_accepts_iff.
  intros Hb. apply (proj1 (sanitize_accepts_iff text) H).
  destruct (strip_spec text) as (l & r & Heq & _). rewrite Heq.
  by apply mentions_banned_part.
Qed.

Lemma sanitize_input_idempotent_example :
  sanitize_input "screen resumes" = inr "screen resumes"%string.
Proof. exact (sanitize_input_idempotent "  screen resumes  " "screen resumes" eq_refl). Defined.

(** *** Letter case *)

Lemma isspace_lower_char (c : ascii) : isspace (lower_char c) = isspace c.
Proof. destruct c as [[] [] [] [] [] [] [] []]; reflexivity. Qed.

Lemma lower_char_idemp (c : ascii) : lower_char (lower_char c) = lower_char c.
Proof. destruct c as [[] [] [] [] [] [] [] []]; reflexivity. Qed.

Lemma lower_idemp (s : string) : lower (lower s) = lower s.
Proof. induction s as [|c s IH]; simpl; [done|]. by rewrite lower_char_idemp, IH. Qed.

Lemma lstrip_lower (s : string) : lstrip (lower s) = lower (lstrip s).
Proof.
  induction s as [|c s IH]; simpl; [done|].
  rewrite isspace_lower_char. by destruct (isspace c).
Qed.

Lemma rstrip_lower (s : string) : rstrip (lower s) = lower (rstrip s).
Proof.
  induction s as [|c s IH]; simpl; [done|].
  rewrite IH, isspace_lower_char.
  destruct (rstrip s); simpl; [by destruct (isspace c) | done].
Qed.

Lemma strip_lower (s : string) : strip (lower s) = lower (strip s).
Proof. unfold strip. by rewrite lstrip_lower, rstrip_lower. Qed.

Lemma truthy_lower (s : string) : truthy (lower s) = truthy s.
Proof. by destruct s. Qed.

Lemma scan_banned_lower (words : list string) (q : string) :
  scan_banned words (lower q) = scan_banned words q.
Proof. induction words as [|w ws IH]; simpl; [done|]. by rewrite lower_idemp, IH. Qed.

Lemma on_submit_lower (q : string) : on_submit (lower q) = on_submit q.
Proof.
  unfold on_submit, sanitize_input.
  rewrite scan_banned_lower, strip_lower, truthy_lower.
  destruct (negb _); [done|]. destruct (scan_banned banned q) as [e|[]]; [done|].
  by rewrite lower_idemp.
Qed.

(** X2.  What Submit does depends on the query only up to letter case: two
    queries with the same lower-case form are warned about, refused or routed
    alike. *)
Theorem on_submit_ignores_case (q q' : string) :
  lower q = lower q' -> on_submit q = on_submit q'.
Proof. intros H. by rewrite <- (on_submit_lower q), H, on_submit_lower. Qed.

Lemma on_submit_ignores_case_example :
  on_submit "Check Leave POLICY" = on_submit "check leave policy".
Proof. exact (on_submit_ignores_case "Check Leave POLICY" "check leave policy" eq_refl). Defined.

(** X3.  Submit lets no exception through; it warns exactly on a query that
    is empty or blank; it refuses, with the guardrail's message, exactly the
    other queries that mention a banned word; every remaining query sets one
    of the four modes. *)
Theorem on_submit_outcomes (query : string) :
  (forall e, on_submit query <> Uncaught e) /\
  (strip query = ""%string <-> exists msg, on_submit query = Warned msg) /\
  (strip query <> ""%string /\ mentions_banned query
     <-> on_submit query = Refused unsafe_message) /\
  (strip query <> ""%string /\ ~ mentions_banned query
     <-> exists mode, on_submit query = ModeSet mode /\
           In mode ["resume"; "policy"; "onboarding"; "unknown"]%string).
Proof.
  destruct (sanitize_input_cases query) as [Hraise Hret].
  assert (Hmode : forall q, In (route q) ["resume"; "policy"; "onboarding"; "unknown"]%string).
  { intros q. unfold route. repeat destruct (any_in _ q); simpl; tauto. }
  unfold on_submit. destruct (strip query) as [|c rest] eqn:Hs; simpl.
  - split; [done|]. split; [split; [by eexists | done]|].
    split; [split; [by intros [? _] | done]|].
    split; [by intros [? _] | by intros (m & ? & _)].
  - destruct (sanitize_input query) as [e|s] eqn:E.
    + assert (Hb : mentions_banned query) by (apply Hraise; by exists e).
      assert (He : e = ValueError unsafe_message).
      { unfold sanitize_input in E.
        destruct (scan_banned banned query) as [e1|[]] eqn:E1; [|done].
        injection E as <-. by eapply scan_banned_error. }
      subst e. simpl. split; [done|]. split; [split; [done | by intros [? ?]]|].
      split; [done|]. split; [by intros [_ ?] | by intros (m & ? & _)].
    + assert (Hb : ~ mentions_banned query).
      { intros Hb. apply Hraise in Hb as [e He]. congruence. }
      split; [done|]. split; [split; [done | by intros [? ?]]|].
      split; [split; [by intros [_ ?] | done]|].
      split; [|done]. intros _. eexists. split; [done | apply Hmode].
Qed.

End QueryBoxFacts.

(** ** Python objects that come out of [json.loads] and sit in result rows *)

Inductive pyval : Type :=
| PNone
| PBool (b : bool)
| PInt (z : Z)
| PFloat (f : float)
| PStr (s : string)
| PList (items : list pyval)
| PDict (entries : list (string * pyval)).

(** A [dict] with string keys: the entries in insertion order, one entry per
    key. *)
Definition pydict : Type := list (string * pyval).

Module PyDict.

(** [d.get(k)]: [None] stands for a missing key. *)
Fixpoint get (k : string) (d : pydict) : option pyval :=
  match d with
  | [] => None
  | (k', v) :: d' => if String.eqb k k' then Some v else get k d'
  end.

(** [d.get(k, default)]. *)
Definition get_default (k : string) (default : pyval) (d : pydict) : pyval :=
  match get k d with Some v => v | None => default end.

(** [d[k] = v]: overwrite in place, or add at the end. *)
Fixpoint set (k : string) (v : pyval) (d : pydict) : pydict :=
  match d with
  | [] => [(k, v)]
  | (k', v') :: d' => if String.eqb k k' then (k', v) :: d' else (k', v') :: set k v d'
  end.

(** [parsed[k] = v] on whatever [json.loads] returned: only a [dict] takes a
    string key; a list, a string, a number, a boolean or [None] raises
    [TypeError]. *)
Definition set_item (parsed : pyval) (k : string) (v : pyval) : exn + pydict :=
  match parsed with
  | PDict d => inr (set k v d)
  | _ => inl (TypeError "object does not support item assignment")
  end.

Lemma get_set_eq (k : string) (v : pyval) (d : pydict) : get k (set k v d) = Some v.
Proof.
  induction d as [|[k' v'] d IH]; simpl.
  - by rewrite String.eqb_refl.
  - destruct (String.eqb k k') eqn:E; simpl; by rewrite E.
Qed.

Lemma get_set_ne (k k2 : string) (v : pyval) (d : pydict) :
  k2 <> k -> get k2 (set k v d) = get k2 d.
Proof.
  intros Hne. induction d as [|[k' v'] d IH]; simpl.
  - destruct (String.eqb k2 k) eqn:E; [|done]. by apply String.eqb_eq in E.
  - destruct (String.eqb k k') eqn:E; simpl; [|by rewrite IH].
    apply String.eqb_eq in E as <-.
    destruct (String.eqb k2 k) eqn:E2; [|done]. by apply String.eqb_eq in E2.
Qed.

End PyDict.

(** ** [json.dumps] *)

Module Json.
Import PyStr.

Definition hex_digit (n : N) : ascii :=
  match n with
  | 0 => "0" | 1 => "1" | 2 => "2" | 3 => "3" | 4 => "4" | 5 => "5" | 6 => "6"
  | 7 => "7" | 8 => "8" | 9 => "9" | 10 => "a" | 11 => "b" | 12 => "c"
  | 13 => "d" | 14 => "e" | _ => "f"
  end%N%char.

(** The double quote, by its code. *)
Definition dquote : string := String (ascii_of_N 34) "".

(** One character inside a JSON string, with [ensure_ascii] on: the short
    escapes, [\u00xx] for what is not printable ASCII, the character
    itself otherwise. *)
Definition escape_char (c : ascii) : string :=
  let n := code c in
  if (n =? 34)%N then "\" +:+ dquote
  else if (n =? 92)%N then "\\"
  else if (n =? 10)%N then "\n"
  else if (n =? 13)%N then "\r"
  else if (n =? 9)%N then "\t"
  else if (n =? 8)%N then "\b"
  else if (n =? 12)%N then "\f"
  else if ((32 <=? n) && (n <=? 126))%N then String c ""
  else "\u00" +:+ String (hex_digit (n / 16)) (String (hex_digit (n mod 16)) "").

Fixpoint escape (s : string) : string :=
  match s with
  | EmptyString => EmptyString
  | String c s' => escape_char c +:+ escape s'
  end.

Definition quote (s : string) : string := dquote +:+ escape s +:+ dquote.

(** [sep.join(parts)]. *)
Fixpoint join (sep : string) (parts : list string) : string :=
  match parts with
  | [] => ""
  | [p] => p
  | p :: rest => p +:+ sep +:+ join sep rest
  end.

Definition int_repr (z : Z) : string :=
  DecimalString.NilZero.string_of_int (Z.to_int z).

Section Dumps.

(** [float.__repr__], which the interpreter supplies. *)
Variable float_repr : float -> string.

Fixpoint dumps (v : pyval) : string :=
  match v with
  | PNone => "null"
  | PBool true => "true"
  | PBool false => "false"
  | PInt z => int_repr z
  | PFloat f => float_repr f
  | PStr s => quote s
  | PList items => "[" +:+ join ", " (map dumps items) +:+ "]"
  | PDict entries =>
      "{" +:+ join ", " (map (fun kv => quote (fst kv) +:+ ": " +:+ dumps (snd kv)) entries)
          +:+ "}"
  end.

End Dumps.

End Json.

(** ** [str()] and truth values of Python objects *)

Module PyObj.

Section Str.

(** [float.__repr__], and [repr] of a list or a dict: the interpreter's. *)
Variable float_repr : float -> string.
Variable container_repr : pyval -> string.

(** [str(v)], which is also what an f-string field and [astype(str)] give. *)
Definition py_str (v : pyval) : string :=
  match v with
  | PNone => "None"
  | PBool true => "True"
  | PBool false => "False"
  | PInt z => Json.int_repr z
  | PFloat f => float_repr f
  | PStr s => s
  | PList _ | PDict _ => container_repr v
  end.

End Str.

(** [bool(v)]. *)
Definition truthy (v : pyval) : bool :=
  match v with
  | PNone => false
  | PBool b => b
  | PInt z => negb (z =? 0)
  | PFloat f => negb (f =? 0)%float
  | PStr s => PyStr.truthy s
  | PList items => match items with [] => false | _ => true end
  | PDict entries => match entries with [] => false | _ => true end
  end.

(** Two texts are equal up to letter case. *)
Definition equal_ignoring_case (a b : string) : Prop :=
  PyStr.lower a = PyStr.lower b.

#[global] Instance equal_ignoring_case_dec (a b : string) :
  Decision (equal_ignoring_case a b).
Proof. unfold equal_ignoring_case. apply _. Defined.

(** What [x.upper() == "PASS"] accepts: PASS in any letter case and, since
    [str.upper] writes SS for a sharp s, also pa followed by a sharp s, in
    any letter case. *)
Definition upper_equals_PASS (s : string) : Prop :=
  equal_ignoring_case s "PASS" \/ equal_ignoring_case s PyStr.pass_sharp.

#[global] Instance upper_equals_PASS_dec (s : string) : Decision (upper_equals_PASS s).
Proof. unfold upper_equals_PASS. apply _. Defined.

Lemma upper_is_PASS (s : string) :
  PyStr.eqb_points (PyStr.upper s) (PyStr.points "PASS") = true <-> upper_equals_PASS s.
Proof. rewrite PyStr.eqb_points_eq. apply PyStr.upper_PASS. Qed.

Lemma pass_sharp_not_PASS : ~ equal_ignoring_case PyStr.pass_sharp "PASS".
Proof. intros H. discriminate H. Qed.

End PyObj.

(** ** Computations with effects *)

Module Effects.

Section Monad.

Variable World : Type.

(** A computation that reads and changes the world and returns or raises.
    The world after a raise is kept: Python does not undo effects. *)
Definition M (A : Type) : Type := World -> (exn + A) * World.

Definition ret {A} (a : A) : M A := fun w => (inr a, w).
Definition raise {A} (e : exn) : M A := fun w => (inl e, w).
Definition bind {A B} (c : M A) (k : A -> M B) : M B :=
  fun w => match c w with
           | (inr a, w') => k a w'
           | (inl e, w') => (inl e, w')
           end.
Definition lift {A} (r : exn + A) : M A :=
  match r with inl e => raise e | inr a => ret a end.

(** [try: c  except <class>: h], for the exceptions [catches] accepts; the
    others pass through. *)
Definition try_except {A} (c : M A) (catches : exn -> bool) (h : exn -> M A) : M A :=
  fun w => match c w with
           | (inr a, w') => (inr a, w')
           | (inl e, w') => if catches e then h e w' else (inl e, w')
           end.

(** [for x in xs: s = body s x], stopping at the first raise. *)
Fixpoint for_each {S X} (body : S -> X -> M S) (xs : list X) (s : S) : M S :=
  match xs with
  | [] => ret s
  | x :: xs' => bind (body s x) (for_each body xs')
  end.

Lemma for_each_cons {S X} (body : S -> X -> M S) (x : X) (xs : list X) (s : S) (w : World) :
  for_each body (x :: xs) s w =
  match body s x w with
  | (inr s1, w1) => for_each body xs s1 w1
  | (inl e, w1) => (inl e, w1)
  end.
Proof. reflexivity. Qed.

Lemma for_each_app {S X} (body : S -> X -> M S) (xs ys : list X) (s : S) (w : World) :
  for_each body (xs ++ ys) s w =
  match for_each body xs s w with
  | (inr s1, w1) => for_each body ys s1 w1
  | (inl e, w1) => (inl e, w1)
  end.
Proof.
  revert s w; induction xs as [|x xs IH]; intros s w; simpl; [done|].
  unfold bind. destruct (body s x w) as [[e|s'] w']; [done|]. apply IH.
Qed.

Lemma for_each_returns {S X} (body : S -> X -> M S) :
  (forall s x w, exists s' w', body s x w = (inr s', w')) ->
  forall xs s w, exists s' w', for_each body xs s w = (inr s', w').
Proof.
  intros Hbody xs. induction xs as [|x xs IH]; intros s w.
  - by exists s, w.
  - rewrite for_each_cons. destruct (Hbody s x w) as (s1 & w1 & ->). apply IH.
Qed.

End Monad.

Arguments ret {World A} a.
Arguments raise {World A} e.
Arguments bind {World A B} c k.
Arguments lift {World A} r.
Arguments try_except {World A} c catches h.
Arguments for_each {World S X} body xs s.
Arguments for_each_cons {World S X} body x xs s w.
Arguments for_each_app {World S X} body xs ys s w.
Arguments for_each_returns {World S X} body.

Notation "x <- c ;; k" := (bind c (fun x => k))
  (at level 100, c at next level, right associativity).

End Effects.

(** ** [Agents/resume_screening_app.py] *)

Module Screening.
Import PyStr Effects.

(** An upload: the name the browser sent and the bytes. *)
Record UploadedFile : Type := { name : string; data : string }.

(** One message of a provider request. *)
Record Message : Type := { role : string; content : string }.

(** The keyword arguments of [client.responses.create] and of
    [client.chat.completions.create]; [json_object] is the
    [response_format] argument, which only the first call passes. *)
Record Request : Type :=
  { model : string; messages : list Message; json_object : bool }.

(** The f-string [prompt]; the role is interpolated twice. *)
Definition prompt (role : string) : string :=
  "
You are an expert HR recruiter assistant.
Candidate is applying for " +:+ role +:+ ".
Below is their resume text.

1. Extract: Age, Education, Skills, Projects, Certifications.
2. Score each (0–10) for relevance to " +:+ role +:+ ".
3. Compute weighted average: Skills40 + Projects30 + Education20 + Certs10.
4. Return JSON only:
{" +:+ Json.dquote +:+ "weighted_average" +:+ Json.dquote +:+ ": float, "
   +:+ Json.dquote +:+ "verdict" +:+ Json.dquote +:+ ": "
   +:+ Json.dquote +:+ "PASS" +:+ Json.dquote +:+ "/"
   +:+ Json.dquote +:+ "FAIL" +:+ Json.dquote +:+ ", "
   +:+ Json.dquote +:+ "reasoning" +:+ Json.dquote +:+ ": "
   +:+ Json.dquote +:+ "string" +:+ Json.dquote +:+ "}
".

Definition newline : string := String (ascii_of_N 10) "".

(** [prompt + "\nResume:\n" + resume_text[:8000]]. *)
Definition user_content (role resume_text : string) : string :=
  prompt role +:+ newline +:+ "Resume:" +:+ newline +:+ str_take 8000 resume_text.

Definition request_messages (role resume_text : string) : list Message :=
  [ {| role := "system"; content := "Return valid JSON only." |};
    {| role := "user"; content := user_content role resume_text |} ].

Definition responses_request (role resume_text : string) : Request :=
  {| model := "gpt-4o-mini";
     messages := request_messages role resume_text;
     json_object := true |}.

Definition chat_request (role resume_text : string) : Request :=
  {| model := "gpt-4o-mini";
     messages := request_messages role resume_text;
     json_object := false |}.

(** The dict literal of the [except Exception as e] branch. *)
Definition error_verdict (e : exn) : pyval :=
  PDict [ ("weighted_average", PInt 0);
          ("verdict", PStr "FAIL");
          ("reasoning", PStr ("Error: " +:+ str_of_exn e)) ].

(** The two dict literals of the retry pass. *)
Definition two_attempts_verdict (filename : string) : pydict :=
  [ ("filename", PStr filename);
    ("weighted_average", PInt 0);
    ("verdict", PStr "FAIL");
    ("reasoning", PStr "Resume could not be parsed after two attempts.") ].

Definition unreadable_verdict (filename : string) : pydict :=
  [ ("filename", PStr filename);
    ("weighted_average", PInt 0);
    ("verdict", PStr "FAIL");
    ("reasoning", PStr "Unreadable or empty resume text (after retry).") ].

(** The [filename] cell of a result row, when it is a string. *)
Definition filename_of (row : pydict) : option string :=
  match PyDict.get "filename" row with
  | Some (PStr s) => Some s
  | _ => None
  end.

Section Pipeline.

(** Everything outside the process: the provider, the files on the upload
    widget, the OCR engine. *)
Variable World : Type.

Local Abbreviation M := (Effects.M World).

(** *** External collaborators *)

(** [client.responses.create(...)] followed by [resp.output_text]. *)
Variable responses_create : Request -> M string.
(** [client.chat.completions.create(...)] followed by
    [chat.choices[0].message.content]. *)
Variable chat_completions_create : Request -> M string.
(** [float.__repr__] and [json.loads]. *)
Variable float_repr : float -> string.
Variable json_loads : string -> exn + pyval.
(** The page texts [p.extract_text()] gives before pdfplumber is done or
    raises; [None] is a page without text. *)
Variable pdfplumber_pages : UploadedFile -> World -> list (option string) * World.
(** [convert_from_bytes] and [pytesseract.image_to_string] on every page
    image; [None] when either raises. *)
Variable ocr_pages : UploadedFile -> World -> option (list string) * World.
(** The paragraph texts of [docx.Document(file)], which may raise. *)
Variable docx_paragraphs : UploadedFile -> M (list string).

(** *** Text extraction *)

Definition extract_text_from_pdf (file : UploadedFile) : M string :=
  fun w =>
    let '(pages, w1) := pdfplumber_pages file w in
    let text :=
      fold_left (fun text t =>
                   match t with
                   | Some t => if truthy t then text +:+ t +:+ newline else text
                   | None => text
                   end) pages ""%string in
    if negb (truthy (strip text)) then
      match ocr_pages file w1 with
      | (Some imgs, w2) => (inr (strip (fold_left String.append imgs text)), w2)
      | (None, w2) => (inr (strip ""), w2)
      end
    else (inr (strip text), w1).

Definition extract_text_from_docx (file : UploadedFile) : M string :=
  paragraphs <- docx_paragraphs file ;;
  ret (Json.join newline paragraphs).

(** The conditional expression both passes start with. *)
Definition extract_text (file : UploadedFile) : M string :=
  if endswith ".pdf" (name file)
  then extract_text_from_pdf file
  else extract_text_from_docx file.

(** *** The evaluator *)

(** [except TypeError] is tried first and its body is outside the [try], so
    what the chat call raises leaves the function; [except Exception]
    answers every other error of the first call. *)
Definition analyze_resume_with_llm (role resume_text : string) : M string :=
  fun w =>
    match responses_create (responses_request role resume_text) w with
    | (inr output_text, w1) => (inr output_text, w1)
    | (inl e, w1) =>
        if is_TypeError e
        then chat_completions_create (chat_request role resume_text) w1
        else (inr (Json.dumps float_repr (error_verdict e)), w1)
    end.

(** *** The two passes *)

(** The body of the inner [try] of both passes. *)
Definition parse_and_tag (llm_output : string) (file : UploadedFile) : M pydict :=
  parsed <- lift (json_loads llm_output) ;;
  lift (PyDict.set_item parsed "filename" (PStr (name file))).

Definition pass1_step (role : string)
    (st : list pydict * list UploadedFile) (file : UploadedFile)
    : M (list pydict * list UploadedFile) :=
  let '(results, failed_files) := st in
  text <- extract_text file ;;
  if truthy (strip text) then
    llm_output <- analyze_resume_with_llm role text ;;
    try_except
      (parsed <- parse_and_tag llm_output file ;;
       ret (results ++ [parsed], failed_files))
      is_JSONDecodeError
      (fun _ => ret (results, failed_files ++ [file]))
  else ret (results, failed_files ++ [file]).

Definition pass2_step (role : string)
    (results : list pydict) (file : UploadedFile) : M (list pydict) :=
  text <- extract_text file ;;
  if truthy (strip text) then
    llm_output <- analyze_resume_with_llm role text ;;
    try_except
      (parsed <- parse_and_tag llm_output file ;;
       ret (results ++ [parsed]))
      is_JSONDecodeError
      (fun _ => ret (results ++ [two_attempts_verdict (name file)]))
  else ret (results ++ [unreadable_verdict (name file)]).

Definition pass1 (role : string) (uploaded_files : list UploadedFile)
    : M (list pydict * list UploadedFile) :=
  for_each (pass1_step role) uploaded_files ([], []).

Definition pass2 (role : string) (failed_files : list UploadedFile)
    (results : list pydict) : M (list pydict) :=
  for_each (pass2_step role) failed_files results.

(** The block under [if "results" not in st.session_state ...]: what ends
    up in [st.session_state["results"]]. *)
Definition screen (role : string) (uploaded_files : list UploadedFile)
    : M (list pydict) :=
  st <- pass1 role uploaded_files ;;
  match snd st with
  | [] => ret (fst st)
  | _ :: _ => pass2 role (snd st) (fst st)
  end.

(** *** Shape of a run *)

(** [l] is [l1] and [l2] shuffled together, each in its own order. *)
Inductive Interleave {A : Type} : list A -> list A -> list A -> Prop :=
| Interleave_nil : Interleave [] [] []
| Interleave_left x l1 l2 l : Interleave l1 l2 l -> Interleave (x :: l1) l2 (x :: l)
| Interleave_right x l1 l2 l : Interleave l1 l2 l -> Interleave l1 (x :: l2) (x :: l).

(** From world [w] the attempt on [file] reads text, calls the evaluator
    and gets a response that [json.loads] rejects; [w'] is the world after. *)
Definition parse_fails (role : string) (file : UploadedFile) (w w' : World) : Prop :=
  exists text wa llm_output m,
    extract_text file w = (inr text, wa) /\
    truthy (strip text) = true /\
    analyze_resume_with_llm role text wa = (inr llm_output, w') /\
    json_loads llm_output = inl (JSONDecodeError m).

(** From world [w] the extracted text of [file] is empty or blank. *)
Definition unreadable (file : UploadedFile) (w w' : World) : Prop :=
  exists text,
    extract_text file w = (inr text, w') /\ truthy (strip text) = false.

Definition names (files : list UploadedFile) : list (option string) :=
  map (fun f => Some (name f)) files.

Definition filenames (rows : list pydict) : list (option string) :=
  map filename_of rows.

Lemma parse_and_tag_filename (llm_output : string) (file : UploadedFile)
    (w w' : World) (parsed : pydict) :
  parse_and_tag llm_output file w = (inr parsed, w') ->
  w' = w /\ filename_of parsed = Some (name file).
Proof.
  unfold parse_and_tag, bind, lift, ret, raise.
  destruct (json_loads llm_output) as [e|v]; [done|].
  destruct v; simpl; try done.
  intros [= <- <-]. split; [done|].
  unfold filename_of. by rewrite PyDict.get_set_eq.
Qed.

Lemma parse_and_tag_decode_error (llm_output : string) (file : UploadedFile)
    (w : World) (m : string) :
  json_loads llm_output = inl (JSONDecodeError m) ->
  parse_and_tag llm_output file w = (inl (JSONDecodeError m), w).
Proof. intros H. unfold parse_and_tag, bind, lift, raise. by rewrite H. Qed.

(** A pass-1 iteration that returns either appends one row carrying the
    file's name, or appends the file to the retry list. *)
Lemma pass1_step_inv (role : string) (results : list pydict)
    (failed_files : list UploadedFile) (file : UploadedFile)
    (w w' : World) (st' : list pydict * list UploadedFile) :
  pass1_step role (results, failed_files) file w = (inr st', w') ->
  (exists parsed, st' = (results ++ [parsed], failed_files) /\
                  filename_of parsed = Some (name file)) \/
  st' = (results, failed_files ++ [file]).
Proof.
  unfold pass1_step, bind.
  destruct (extract_text file w) as [[e|text] w1]; [done|].
  destruct (truthy (strip text)); [|unfold ret; intros [= <- <-]; by right].
  destruct (analyze_resume_with_llm role text w1) as [[e|out] w2]; [done|].
  unfold try_except, bind.
  destruct (parse_and_tag out file w2) as [[e|parsed] w3] eqn:Hp.
  - destruct (is_JSONDecodeError e); [|done].
    unfold ret. intros [= <- <-]. by right.
  - unfold ret. intros [= <- <-]. left. exists parsed. split; [done|].
    by apply parse_and_tag_filename in Hp as [_ ?].
Qed.

(** A retry iteration that returns appends exactly one row carrying the
    file's name. *)
Lemma pass2_step_inv (role : string) (results : list pydict) (file : UploadedFile)
    (w w' : World) (results' : list pydict) :
  pass2_step role results file w = (inr results', w') ->
  exists row, results' = results ++ [row] /\ filename_of row = Some (name file).
Proof.
  unfold pass2_step, bind.
  destruct (extract_text file w) as [[e|text] w1]; [done|].
  destruct (truthy (strip text)); [|unfold ret; intros [= <- <-]; by eexists].
  destruct (analyze_resume_with_llm role text w1) as [[e|out] w2]; [done|].
  unfold try_except, bind.
  destruct (parse_and_tag out file w2) as [[e|parsed] w3] eqn:Hp.
  - destruct (is_JSONDecodeError e); [|done].
    unfold ret. intros [= <- <-]. by eexists.
  - unfold ret. intros [= <- <-]. exists parsed. split; [done|].
    by apply parse_and_tag_filename in Hp as [_ ?].
Qed.

Lemma pass1_loop_shape (role : string) (files : list UploadedFile) :
  forall r0 f0 w r f w',
    for_each (pass1_step role) files (r0, f0) w = (inr (r, f), w') ->
    exists r1 f1,
      r = r0 ++ r1 /\ f = f0 ++ f1 /\
      Interleave (filenames r1) (names f1) (names files) /\
      sublist f1 files.
Proof.
  induction files as [|x files IH]; intros r0 f0 w r f w'.
  - simpl. unfold ret. intros [= <- <-]. exists [], []. rewrite !app_nil_r.
    repeat split; constructor.
  - rewrite for_each_cons.
    destruct (pass1_step role (r0, f0) x w) as [[e|st1] w1] eqn:Hstep; [done|].
    apply pass1_step_inv in Hstep as [(parsed & -> & Hname) | ->]; intros Hrest;
      apply IH in Hrest as (r1 & f1 & -> & -> & Hil & Hsub).
    + exists (parsed :: r1), f1. rewrite <- app_assoc. repeat split.
      * simpl. rewrite Hname. by constructor.
      * by apply sublist_cons.
    + exists r1, (x :: f1). rewrite <- app_assoc. repeat split.
      * simpl. by constructor.
      * by apply sublist_skip.
Qed.

Lemma pass2_loop_shape (role : string) (failed_files : list UploadedFile) :
  forall r0 w r w',
    for_each (pass2_step role) failed_files r0 w = (inr r, w') ->
    exists r2, r = r0 ++ r2 /\ filenames r2 = names failed_files.
Proof.
  induction failed_files as [|x fs IH]; intros r0 w r w'.
  - simpl. unfold ret. intros [= <- <-]. exists []. by rewrite app_nil_r.
  - rewrite for_each_cons.
    destruct (pass2_step role r0 x w) as [[e|r1] w1] eqn:Hstep; [done|].
    apply pass2_step_inv in Hstep as (row & -> & Hname). intros Hrest.
    apply IH in Hrest as (r2 & -> & Hnames).
    exists (row :: r2). rewrite <- app_assoc. split; [done|].
    simpl. by rewrite Hname, Hnames.
Qed.

(** A run that returns went through both loops. *)
Lemma screen_inv (role : string) (files : list UploadedFile) (w w' : World)
    (results : list pydict) :
  screen role files w = (inr results, w') ->
  exists r1 failed w1,
    pass1 role files w = (inr (r1, failed), w1) /\
    pass2 role failed r1 w1 = (inr results, w').
Proof.
  unfold screen, bind.
  destruct (pass1 role files w) as [[e|[r1 failed]] w1]; [done|]. simpl.
  intros H. exists r1, failed, w1. split; [done|].
  destruct failed; [|done]. by unfold pass2.
Qed.

(** *** Counting *)

Lemma Interleave_Permutation {A} (l1 l2 l : list A) :
  Interleave l1 l2 l -> l ≡ₚ l1 ++ l2.
Proof.
  induction 1 as [|x l1 l2 l _ IH|x l1 l2 l _ IH]; simpl.
  - done.
  - by rewrite IH.
  - rewrite IH. apply Permutation_middle.
Qed.

Lemma Interleave_sublist_l {A} (l1 l2 l : list A) :
  Interleave l1 l2 l -> sublist l1 l.
Proof.
  induction 1; [constructor | by apply sublist_skip | by apply sublist_cons].
Qed.

Lemma Interleave_sublist_r {A} (l1 l2 l : list A) :
  Interleave l1 l2 l -> sublist l2 l.
Proof.
  induction 1; [constructor | by apply sublist_cons | by apply sublist_skip].
Qed.

Lemma filter_filenames_length (n : string) (rows : list pydict) :
  length (filter (fun row => filename_of row = Some n) rows) =
  length (filter (fun o => o = Some n) (filenames rows)).
Proof.
  induction rows as [|row rows IH]; [done|]. simpl.
  rewrite !filter_cons. repeat case_decide; simpl; try congruence.
Qed.

Lemma filter_eq_absent {A} `{EqDecision A} (x : A) (l : list A) :
  x ∉ l -> filter (fun y => y = x) l = [].
Proof.
  induction l as [|y l IH]; [done|].
  intros [Hne Hx]%not_elem_of_cons.
  rewrite filter_cons_False by congruence. by apply IH.
Qed.

Lemma filter_eq_NoDup_length {A} `{EqDecision A} (x : A) (l : list A) :
  NoDup l -> x ∈ l -> length (filter (fun y => y = x) l) = 1%nat.
Proof.
  induction 1 as [|y l Hy Hnd IH]; [by intros ?%elem_of_nil|].
  intros [->|Hin]%elem_of_cons.
  - rewrite filter_cons_True by done. by rewrite filter_eq_absent.
  - rewrite filter_cons_False by (intros ->; done). by apply IH.
Qed.

Lemma NoDup_names (files : list UploadedFile) :
  NoDup (map name files) -> NoDup (names files).
Proof.
  unfold names. induction files as [|f fs IH]; simpl; [constructor|].
  intros [Hn Hnd]%NoDup_cons. apply NoDup_cons. split; [|by apply IH].
  intros Hin. apply Hn.
  apply list_elem_of_In, in_map_iff in Hin as (g & [= Hg] & Hgin).
  apply list_elem_of_In, in_map_iff. by exists g.
Qed.

(** *** Position of a retried item *)

Lemma length_filenames (rows : list pydict) : length (filenames rows) = length rows.
Proof. unfold filenames. apply length_map. Qed.

Lemma length_names (files : list UploadedFile) : length (names files) = length files.
Proof. unfold names. apply length_map. Qed.

(** An item that pass 1 sends to the retry list at a moment when the list
    has [j] entries is entry [j] of the final retry list; if the retry
    iteration on it appends [row], then [row] is at the matching place of
    the results. *)
Lemma retried_row_position (role : string) (files : list UploadedFile) (w : World)
    (i : nat) (f : UploadedFile)
    (st_i : list pydict * list UploadedFile) (w_i w_i' : World)
    (r1 : list pydict) (failed : list UploadedFile) (w1 : World)
    (r_j : list pydict) (w_j w_j' : World) (row : pydict)
    (results : list pydict) (w_end : World) :
  files !! i = Some f ->
  for_each (pass1_step role) (firstn i files) ([], []) w = (inr st_i, w_i) ->
  pass1_step role st_i f w_i = (inr (fst st_i, snd st_i ++ [f]), w_i') ->
  pass1 role files w = (inr (r1, failed), w1) ->
  for_each (pass2_step role) (firstn (length (snd st_i)) failed) r1 w1 = (inr r_j, w_j) ->
  pass2_step role r_j f w_j = (inr (r_j ++ [row]), w_j') ->
  screen role files w = (inr results, w_end) ->
  failed !! length (snd st_i) = Some f /\
  results !! (length r1 + length (snd st_i))%nat = Some row.
Proof.
  intros Hi Hpre Hstep1 Hp1 Hj Hstep2 Hrun.
  assert (Hfailed : failed !! length (snd st_i) = Some f).
  { unfold pass1 in Hp1. rewrite <- (take_drop_middle files i f Hi) in Hp1.
    rewrite for_each_app, Hpre, for_each_cons, Hstep1 in Hp1.
    apply pass1_loop_shape in Hp1 as (r' & f' & _ & -> & _).
    rewrite <- app_assoc. rewrite lookup_app_r by done.
    by rewrite Nat.sub_diag. }
  split; [done|].
  apply screen_inv in Hrun as (r1' & failed' & w1' & Hp1' & Hp2).
  rewrite Hp1 in Hp1'. injection Hp1' as <- <- <-.
  unfold pass2 in Hp2.
  rewrite <- (take_drop_middle failed _ f Hfailed) in Hp2.
  rewrite for_each_app, Hj, for_each_cons, Hstep2 in Hp2.
  apply pass2_loop_shape in Hp2 as (rest & -> & _).
  apply pass2_loop_shape in Hj as (rr & -> & Hrr).
  assert (Hlen : length rr = length (snd st_i)).
  { rewrite <- length_filenames, Hrr, length_names, length_take.
    apply lookup_lt_Some in Hfailed. lia. }
  rewrite <- !app_assoc. rewrite lookup_app_r by lia.
  rewrite lookup_app_r by lia.
  replace (length r1 + length (snd st_i) - length r1 - length rr)%nat with 0%nat by lia.
  done.
Qed.

Lemma pass1_step_parse_fails (role : string) (st : list pydict * list UploadedFile)
    (f : UploadedFile) (w w' : World) :
  parse_fails role f w w' ->
  pass1_step role st f w = (inr (fst st, snd st ++ [f]), w').
Proof.
  intros (text & wa & out & m & Hx & Ht & Ha & Hl). destruct st as [r fl].
  unfold pass1_step, bind. rewrite Hx, Ht, Ha. unfold try_except, bind.
  by rewrite (parse_and_tag_decode_error _ _ _ _ Hl).
Qed.

Lemma pass2_step_parse_fails (role : string) (r : list pydict)
    (f : UploadedFile) (w w' : World) :
  parse_fails role f w w' ->
  pass2_step role r f w = (inr (r ++ [two_attempts_verdict (name f)]), w').
Proof.
  intros (text & wa & out & m & Hx & Ht & Ha & Hl).
  unfold pass2_step, bind. rewrite Hx, Ht, Ha. unfold try_except, bind.
  by rewrite (parse_and_tag_decode_error _ _ _ _ Hl).
Qed.

Lemma pass1_step_unreadable (role : string) (st : list pydict * list UploadedFile)
    (f : UploadedFile) (w w' : World) :
  unreadable f w w' ->
  pass1_step role st f w = (inr (fst st, snd st ++ [f]), w').
Proof.
  intros (text & Hx & Ht). destruct st as [r fl].
  unfold pass1_step, bind. by rewrite Hx, Ht.
Qed.

Lemma pass2_step_unreadable (role : string) (r : list pydict)
    (f : UploadedFile) (w w' : World) :
  unreadable f w w' ->
  pass2_step role r f w = (inr (r ++ [unreadable_verdict (name f)]), w').
Proof.
  intros (text & Hx & Ht). unfold pass2_step, bind. by rewrite Hx, Ht.
Qed.

(** The decomposition of a run that returns. *)
Lemma screen_shape (role : string) (files : list UploadedFile)
    (w w' : World) (results : list pydict) :
  screen role files w = (inr results, w') ->
  exists r1 failed w1 r2,
    pass1 role files w = (inr (r1, failed), w1) /\
    results = r1 ++ r2 /\
    Interleave (filenames r1) (names failed) (names files) /\
    sublist failed files /\
    filenames r2 = names failed.
Proof.
  intros Hrun. apply screen_inv in Hrun as (r1 & failed & w1 & Hp1 & Hp2).
  pose proof Hp1 as Hshape.
  apply pass1_loop_shape in Hshape as (r1' & f1' & -> & -> & Hil & Hsub).
  apply pass2_loop_shape in Hp2 as (r2 & -> & Hr2).
  exists r1', f1', w1, r2. simpl in *. done.
Qed.

(** *** When a run returns *)

Section Completion.

(** Every upload that is not a PDF opens as a document, the chat endpoint
    answers, and [json.loads] gives an object or rejects the text. *)
Hypothesis docx_opens :
  forall file w, exists ps w', docx_paragraphs file w = (inr ps, w').
Hypothesis chat_answers :
  forall req w, exists content w', chat_completions_create req w = (inr content, w').
Hypothesis loads_object_or_error :
  forall s, (exists d, json_loads s = inr (PDict d)) \/
            (exists m, json_loads s = inl (JSONDecodeError m)).

Lemma extract_text_returns (file : UploadedFile) (w : World) :
  exists text w', extract_text file w = (inr text, w').
Proof.
  unfold extract_text. destruct (endswith ".pdf" (name file)).
  - unfold extract_text_from_pdf. destruct (pdfplumber_pages file w) as [pages w1].
    destruct (negb _); [|by eexists _, _].
    destruct (ocr_pages file w1) as [[imgs|] w2]; by eexists _, _.
  - unfold extract_text_from_docx, bind, ret.
    destruct (docx_opens file w) as (ps & w' & ->). by eexists _, _.
Qed.

Lemma analyze_returns (role text : string) (w : World) :
  exists out w', analyze_resume_with_llm role text w = (inr out, w').
Proof.
  unfold analyze_resume_with_llm.
  destruct (responses_create _ w) as [[e|out] w1]; [|by eexists _, _].
  destruct (is_TypeError e); [apply chat_answers | by eexists _, _].
Qed.

Lemma parse_and_tag_outcomes (out : string) (file : UploadedFile) (w : World) :
  (exists row, parse_and_tag out file w = (inr row, w)) \/
  (exists m, parse_and_tag out file w = (inl (JSONDecodeError m), w)).
Proof.
  unfold parse_and_tag, bind, lift, ret, raise.
  destruct (loads_object_or_error out) as [(d & ->) | (m & ->)]; simpl.
  - left. by eexists.
  - right. by eexists.
Qed.

Lemma pass1_step_returns (role : string) (st : list pydict * list UploadedFile)
    (file : UploadedFile) (w : World) :
  exists st' w', pass1_step role st file w = (inr st', w').
Proof.
  destruct st as [results failed]. unfold pass1_step, bind.
  destruct (extract_text_returns file w) as (text & w1 & ->).
  destruct (truthy (strip text)); [|by eexists _, _].
  destruct (analyze_returns role text w1) as (out & w2 & ->).
  unfold try_except, bind, ret.
  destruct (parse_and_tag_outcomes out file w2) as [(row & ->) | (m & ->)];
    by eexists _, _.
Qed.

Lemma pass2_step_returns (role : string) (results : list pydict)
    (file : UploadedFile) (w : World) :
  exists results' w', pass2_step role results file w = (inr results', w').
Proof.
  unfold pass2_step, bind.
  destruct (extract_text_returns file w) as (text & w1 & ->).
  destruct (truthy (strip text)); [|by eexists _, _].
  destruct (analyze_returns role text w1) as (out & w2 & ->).
  unfold try_except, bind, ret.
  destruct (parse_and_tag_outcomes out file w2) as [(row & ->) | (m & ->)];
    by eexists _, _.
Qed.

(** Under these three conditions every run returns a result set. *)
Lemma screen_returns (role : string) (files : list UploadedFile) (w : World) :
  exists results w', screen role files w = (inr results, w').
Proof.
  unfold screen, pass1, pass2, bind.
  destruct (for_each_returns (pass1_step role) (pass1_step_returns role)
              files ([], []) w) as ([r1 failed] & w1 & ->). simpl.
  destruct failed as [|f failed]; [by eexists _, _|].
  apply (for_each_returns (pass2_step role) (pass2_step_returns role)).
Qed.

End Completion.

(** *** The claims about the pipeline *)

(** C6.  The results of a run that returns are the rows pass 1 parsed,
    followed by the rows of the retry pass.  The pass-1 rows carry, in input
    order, the names of the files that were not sent to the retry list; the
    retry list holds the other files in input order; together the two name
    sequences are the input names, shuffled but each in its own order; and
    the retry rows carry the names of the retry list, entry by entry. *)
Theorem results_in_terminal_order (role : string) (files : list UploadedFile)
    (w w' : World) (results : list pydict) :
  screen role files w = (inr results, w') ->
  exists r1 failed w1 r2,
    pass1 role files w = (inr (r1, failed), w1) /\
    results = r1 ++ r2 /\
    filenames results = filenames r1 ++ names failed /\
    Interleave (filenames r1) (names failed) (names files) /\
    sublist (filenames r1) (names files) /\
    sublist failed files /\
    filenames r2 = names failed /\
    (forall i row, r2 !! i = Some row ->
       results !! (length r1 + i)%nat = Some row /\
       exists f, failed !! i = Some f /\ filename_of row = Some (name f)).
Proof.
  intros Hrun.
  destruct (screen_shape role files w w' results Hrun)
    as (r1 & failed & w1 & r2 & Hp1 & -> & Hil & Hsub & Hr2).
  exists r1, failed, w1, r2. repeat split; try done.
  - unfold filenames in *. by rewrite map_app, Hr2.
  - by eapply Interleave_sublist_l.
  - by rewrite lookup_app_r, Nat.add_comm, Nat.add_sub by lia.
  - assert (Hrow : filenames r2 !! i = Some (filename_of row)).
    { unfold filenames. by rewrite list_lookup_fmap, H. }
    rewrite Hr2 in Hrow. unfold names in Hrow.
    rewrite list_lookup_fmap in Hrow.
    destruct (failed !! i) as [f|]; [|done].
    exists f. split; [done|]. simpl in Hrow. congruence.
Qed.

(** C1.  When the uploaded files have distinct names, a run that returns
    has as many rows as there are files, exactly one row per file name, and
    no row for any other name; every file either got its row from pass 1 and
    is not in the retry list, or is in the retry list, and the retry pass
    added one row for each entry of that list. *)
Theorem one_verdict_per_filename (role : string) (files : list UploadedFile)
    (w w' : World) (results : list pydict) :
  NoDup (map name files) ->
  screen role files w = (inr results, w') ->
  length results = length files /\
  (forall f, f ∈ files ->
     length (filter (fun row => filename_of row = Some (name f)) results) = 1%nat) /\
  (forall row, row ∈ results ->
     exists f, f ∈ files /\ filename_of row = Some (name f)) /\
  exists r1 failed w1 r2,
    pass1 role files w = (inr (r1, failed), w1) /\
    results = r1 ++ r2 /\
    filenames r2 = names failed /\
    forall f, f ∈ files ->
      (Some (name f) ∈ filenames r1 /\ Some (name f) ∉ names failed) \/
      (Some (name f) ∈ names failed /\ Some (name f) ∉ filenames r1).
Proof.
  intros Hnd Hrun.
  destruct (screen_shape role files w w' results Hrun)
    as (r1 & failed & w1 & r2 & Hp1 & -> & Hil & _ & Hr2).
  apply NoDup_names in Hnd.
  pose proof (Interleave_Permutation _ _ _ Hil) as Hperm.
  assert (Hall : filenames (r1 ++ r2) ≡ₚ names files).
  { unfold filenames in *. by rewrite map_app, Hr2, Hperm. }
  split; [|split; [|split]].
  - by rewrite <- length_filenames, Hall, length_names.
  - intros f Hf. rewrite filter_filenames_length, Hall.
    apply filter_eq_NoDup_length; [done|].
    unfold names. apply list_elem_of_In, in_map_iff. exists f.
    split; [done | by apply list_elem_of_In].
  - intros row Hrow.
    assert (Hin : filename_of row ∈ names files).
    { rewrite <- Hall. unfold filenames. apply list_elem_of_In, in_map.
      by apply list_elem_of_In. }
    apply list_elem_of_In, in_map_iff in Hin as (f & Hf1 & Hf2).
    exists f. split; [by apply list_elem_of_In | done].
  - exists r1, failed, w1, r2. repeat split; [done..|].
    intros f Hf.
    assert (Hin : Some (name f) ∈ filenames r1 ++ names failed).
    { rewrite <- Hperm. unfold names. apply list_elem_of_In, in_map_iff.
      exists f. split; [done | by apply list_elem_of_In]. }
    rewrite Hperm in Hnd. apply NoDup_app in Hnd as (_ & Hdisj & _).
    apply elem_of_app in Hin as [Hin|Hin].
    + left. split; [done | by apply Hdisj].
    + right. split; [done|]. intros Hin1. by apply (Hdisj _ Hin1).
Qed.

(** C3.  Take the item at place [i] of the input.  If pass 1 reaches it
    (in world [w_i]) and there its text is not blank and the evaluator's
    response does not parse, and the retry pass reaches it (in world [w_j])
    and the same happens again, then in a run that returns the item is in
    the retry list and the row recorded for it is the terminal verdict with
    weighted_average 0, verdict FAIL and the reasoning that says two
    attempts were made. *)
Theorem twice_unparsed_gets_two_attempts_verdict
    (role : string) (files : list UploadedFile) (w : World)
    (i : nat) (f : UploadedFile)
    (st_i : list pydict * list UploadedFile) (w_i w_i' : World)
    (r1 : list pydict) (failed : list UploadedFile) (w1 : World)
    (r_j : list pydict) (w_j w_j' : World)
    (results : list pydict) (w_end : World) :
  files !! i = Some f ->
  for_each (pass1_step role) (firstn i files) ([], []) w = (inr st_i, w_i) ->
  parse_fails role f w_i w_i' ->
  pass1 role files w = (inr (r1, failed), w1) ->
  for_each (pass2_step role) (firstn (length (snd st_i)) failed) r1 w1 = (inr r_j, w_j) ->
  parse_fails role f w_j w_j' ->
  screen role files w = (inr results, w_end) ->
  failed !! length (snd st_i) = Some f /\
  exists row,
    results !! (length r1 + length (snd st_i))%nat = Some row /\
    filename_of row = Some (name f) /\
    PyDict.get "weighted_average" row = Some (PInt 0) /\
    PyDict.get "verdict" row = Some (PStr "FAIL") /\
    PyDict.get "reasoning" row =
      Some (PStr "Resume could not be parsed after two attempts.").
Proof.
  intros Hi Hpre Hf1 Hp1 Hj Hf2 Hrun.
  destruct (retried_row_position role files w i f st_i w_i w_i' r1 failed w1
              r_j w_j w_j' (two_attempts_verdict (name f)) results w_end)
    as [Hfailed Hrow]; try done.
  - by apply pass1_step_parse_fails.
  - by apply pass2_step_parse_fails.
  - split; [done|]. by exists (two_attempts_verdict (name f)).
Qed.

(** C4, as the code has it.  Take the item at place [i] of the input.  If
    pass 1 reaches it and there its extracted text is empty or blank, and
    the retry pass reaches it and the text is empty or blank again, then in
    a run that returns the item is in the retry list (pass 1 records no row
    for it) and the one row recorded for it, by the retry pass, has
    weighted_average 0, verdict FAIL and the reasoning
    "Unreadable or empty resume text (after retry).". *)
Theorem twice_unreadable_gets_after_retry_verdict
    (role : string) (files : list UploadedFile) (w : World)
    (i : nat) (f : UploadedFile)
    (st_i : list pydict * list UploadedFile) (w_i w_i' : World)
    (r1 : list pydict) (failed : list UploadedFile) (w1 : World)
    (r_j : list pydict) (w_j w_j' : World)
    (results : list pydict) (w_end : World) :
  files !! i = Some f ->
  for_each (pass1_step role) (firstn i files) ([], []) w = (inr st_i, w_i) ->
  unreadable f w_i w_i' ->
  pass1 role files w = (inr (r1, failed), w1) ->
  for_each (pass2_step role) (firstn (length (snd st_i)) failed) r1 w1 = (inr r_j, w_j) ->
  unreadable f w_j w_j' ->
  screen role files w = (inr results, w_end) ->
  pass1_step role st_i f w_i = (inr (fst st_i, snd st_i ++ [f]), w_i') /\
  failed !! length (snd st_i) = Some f /\
  exists row,
    results !! (length r1 + length (snd st_i))%nat = Some row /\
    filename_of row = Some (name f) /\
    PyDict.get "weighted_average" row = Some (PInt 0) /\
    PyDict.get "verdict" row = Some (PStr "FAIL") /\
    PyDict.get "reasoning" row =
      Some (PStr "Unreadable or empty resume text (after retry).").
Proof.
  intros Hi Hpre Hf1 Hp1 Hj Hf2 Hrun.
  pose proof (pass1_step_unreadable role st_i f w_i w_i' Hf1) as Hstep1.
  destruct (retried_row_position role files w i f st_i w_i w_i' r1 failed w1
              r_j w_j w_j' (unreadable_verdict (name f)) results w_end)
    as [Hfailed Hrow]; try done.
  - by apply pass2_step_unreadable.
  - split; [done|]. split; [done|]. by exists (unreadable_verdict (name f)).
Qed.

(** *** The claims about the evaluator *)

(** The text [json.dumps] gives for the dict of the [except Exception]
    branch. *)
Definition error_verdict_json (e : exn) : string :=
  "{" +:+ Json.dquote +:+ "weighted_average" +:+ Json.dquote +:+ ": 0, "
      +:+ Json.dquote +:+ "verdict" +:+ Json.dquote +:+ ": "
      +:+ Json.dquote +:+ "FAIL" +:+ Json.dquote +:+ ", "
      +:+ Json.dquote +:+ "reasoning" +:+ Json.dquote +:+ ": "
      +:+ Json.quote ("Error: " +:+ str_of_exn e) +:+ "}".

Lemma dumps_error_verdict (e : exn) :
  Json.dumps float_repr (error_verdict e) = error_verdict_json e.
Proof. reflexivity. Qed.

(** C2, as the code has it.  Let the first provider call raise [e].  If
    [e] is not a [TypeError], the evaluator returns, without raising, the
    JSON text of a verdict with weighted_average 0, verdict FAIL and the
    reasoning "Error: " followed by the error message.  If [e] is a
    [TypeError], the evaluator asks the chat endpoint instead and returns
    its content when that call returns. *)
Theorem evaluator_recovers_provider_error
    (role resume_text : string) (w w1 : World) (e : exn) :
  responses_create (responses_request role resume_text) w = (inl e, w1) ->
  (is_TypeError e = false ->
     analyze_resume_with_llm role resume_text w =
       (inr (Json.dumps float_repr (error_verdict e)), w1) /\
     Json.dumps float_repr (error_verdict e) = error_verdict_json e) /\
  (is_TypeError e = true ->
     forall content w2,
       chat_completions_create (chat_request role resume_text) w1 = (inr content, w2) ->
       analyze_resume_with_llm role resume_text w = (inr content, w2)).
Proof.
  intros Hcall. unfold analyze_resume_with_llm. rewrite Hcall. split.
  - intros ->. split; [done | apply dumps_error_verdict].
  - intros ->. done.
Qed.

(** C5.  The resume text enters both provider requests only through its
    first 8000 characters: the user message is the prompt, the resume
    header and that prefix, the prefix is at most 8000 characters long, and
    two resume texts that agree on their first 8000 characters give the
    same requests and the same evaluator run. *)
Theorem resume_text_truncated (role kept beyond beyond' : string) :
  String.length kept = 8000%nat ->
  user_content role (kept +:+ beyond) =
    prompt role +:+ newline +:+ "Resume:" +:+ newline +:+ kept /\
  responses_request role (kept +:+ beyond) = responses_request role (kept +:+ beyond') /\
  chat_request role (kept +:+ beyond) = chat_request role (kept +:+ beyond') /\
  analyze_resume_with_llm role (kept +:+ beyond) =
    analyze_resume_with_llm role (kept +:+ beyond') /\
  forall text, (String.length (str_take 8000 text) <= 8000)%nat.
Proof.
  intros Hlen.
  assert (Hc : forall b, user_content role (kept +:+ b) =
                         prompt role +:+ newline +:+ "Resume:" +:+ newline +:+ kept).
  { intros b. unfold user_content. by rewrite str_take_app. }
  assert (Hr : forall b, request_messages role (kept +:+ b) =
                         request_messages role kept).
  { intros b. unfold request_messages. rewrite Hc.
    unfold user_content. rewrite <- (str_app_nil_r kept) at 2.
    by rewrite str_take_app. }
  split; [apply Hc|].
  unfold analyze_resume_with_llm, responses_request, chat_request.
  rewrite !Hr. repeat split. intros text. apply str_take_length.
Qed.

(** *** More on the evaluator and the passes *)

(** X4.  Tagging a response keeps what the model wrote: the row is the
    decoded object with its [filename] set to the upload's name, replacing
    any [filename] the response carried, and every other key reads as in the
    response. *)
Theorem parse_and_tag_keeps_fields (llm_output : string) (file : UploadedFile)
    (w w' : World) (row : pydict) :
  parse_and_tag llm_output file w = (inr row, w') ->
  exists d,
    json_loads llm_output = inr (PDict d) /\
    w' = w /\
    PyDict.get "filename" row = Some (PStr (name file)) /\
    (forall k, k <> "filename"%string -> PyDict.get k row = PyDict.get k d) /\
    length row = match PyDict.get "filename" d with
                 | Some _ => length d
                 | None => S (length d)
                 end.
Proof.
  unfold parse_and_tag, bind, lift, ret, raise.
  destruct (json_loads llm_output) as [e|v] eqn:Hl; [done|].
  destruct v as [| | | | | |d]; simpl; try done.
  intros [= <- <-]. exists d. split; [done|]. split; [done|].
  split; [apply PyDict.get_set_eq|]. split; [intros k Hk; by apply PyDict.get_set_ne|].
  clear Hl. induction d as [|[k' v'] d IH]; [done|].
  cbn [PyDict.set PyDict.get].
  destruct (String.eqb "filename" k'); cbn [length]; [done|].
  rewrite IH. by destruct (PyDict.get "filename" d).
Qed.

(** X5.  The only error that leaves the evaluator is the one the chat call
    raises after the first call raised [TypeError]. *)
Theorem evaluator_raises_only_from_fallback (role resume_text : string)
    (w w' : World) (e : exn) :
  analyze_resume_with_llm role resume_text w = (inl e, w') ->
  exists e0 w1,
    responses_create (responses_request role resume_text) w = (inl e0, w1) /\
    is_TypeError e0 = true /\
    chat_completions_create (chat_request role resume_text) w1 = (inl e, w').
Proof.
  unfold analyze_resume_with_llm.
  destruct (responses_create _ w) as [[e0|out] w1]; [|done].
  destruct (is_TypeError e0) eqn:E; [|done].
  intros H. by exists e0, w1.
Qed.

(** The text the pdfplumber loop gathers. *)
Definition page_text (pages : list (option string)) : string :=
  fold_left (fun text t =>
               match t with
               | Some t => if truthy t then text +:+ t +:+ newline else text
               | None => text
               end) pages ""%string.

(** X6.  Reading a PDF never raises.  The text it returns has no white
    space at either end, so it is blank only when it is empty; and when the
    pages pdfplumber read hold text that is not blank, the answer is that
    text, stripped, and the OCR engine is not consulted. *)
Theorem extract_text_from_pdf_total (file : UploadedFile) (w w1 : World)
    (pages : list (option string)) :
  pdfplumber_pages file w = (pages, w1) ->
  exists text w',
    extract_text_from_pdf file w = (inr text, w') /\
    strip text = text /\
    truthy (strip text) = truthy text /\
    (truthy (strip (page_text pages)) = true ->
       text = strip (page_text pages) /\ w' = w1).
Proof.
  intros Hp. unfold extract_text_from_pdf. rewrite Hp. fold (page_text pages).
  destruct (truthy (strip (page_text pages))) eqn:Ht; simpl.
  - eexists _, _. split; [done|].
    rewrite QueryBoxFacts.strip_idemp. done.
  - destruct (ocr_pages file w1) as [[imgs|] w2]; eexists _, _;
      (split; [done|]); rewrite ?QueryBoxFacts.strip_idemp; done.
Qed.

(** A step of pass 1 that raises ends the run with that exception. *)
Lemma pass1_raise_aborts (role : string) (pre post : list UploadedFile)
    (f : UploadedFile) (st : list pydict * list UploadedFile)
    (w w_i w' : World) (e : exn) :
  for_each (pass1_step role) pre ([], []) w = (inr st, w_i) ->
  pass1_step role st f w_i = (inl e, w') ->
  screen role (pre ++ f :: post) w = (inl e, w').
Proof.
  intros Hpre Hstep. unfold screen, pass1, bind.
  by rewrite for_each_app, Hpre, for_each_cons, Hstep.
Qed.

Definition is_dict (v : pyval) : bool :=
  match v with PDict _ => true | _ => false end.

(** X7.  A response that is valid JSON but not an object (a list, a
    string, a number, true, false or null) is not sent to the retry list: if
    pass 1 meets one, the whole run ends with a [TypeError] and no result
    set, whatever the files before it gave. *)
Theorem non_object_response_aborts (role : string) (pre post : list UploadedFile)
    (f : UploadedFile) (st : list pydict * list UploadedFile)
    (w w_i wa wb : World) (text llm_output : string) (v : pyval) :
  for_each (pass1_step role) pre ([], []) w = (inr st, w_i) ->
  extract_text f w_i = (inr text, wa) ->
  truthy (strip text) = true ->
  analyze_resume_with_llm role text wa = (inr llm_output, wb) ->
  json_loads llm_output = inr v ->
  is_dict v = false ->
  exists msg, screen role (pre ++ f :: post) w = (inl (TypeError msg), wb).
Proof.
  intros Hpre Hx Ht Ha Hl Hv. eexists. eapply pass1_raise_aborts; [done|].
  destruct st as [results failed]. unfold pass1_step, bind.
  rewrite Hx, Ht, Ha. unfold try_except, bind, parse_and_tag, lift, raise.
  rewrite Hl. by destruct v.
Qed.

Lemma screen_rows (role : string) (files : list UploadedFile)
    (w w' : World) (results : list pydict) :
  screen role files w = (inr results, w') ->
  filenames results ≡ₚ names files /\ length results = length files.
Proof.
  intros Hrun.
  destruct (screen_shape role files w w' results Hrun)
    as (r1 & failed & w1 & r2 & _ & -> & Hil & _ & Hr2).
  assert (Hperm : filenames (r1 ++ r2) ≡ₚ names files).
  { unfold filenames in *. rewrite map_app, Hr2.
    by rewrite (Interleave_Permutation _ _ _ Hil). }
  split; [done|]. by rewrite <- length_filenames, Hperm, length_names.
Qed.

(** *** What ends a run *)

Lemma for_each_raises {S X : Type} (body : S -> X -> M S) (xs : list X) :
  forall s w e w',
    for_each body xs s w = (inl e, w') ->
    exists x s1 w1, x ∈ xs /\ body s1 x w1 = (inl e, w').
Proof.
  induction xs as [|x xs IH]; intros s w e w'; [done|].
  rewrite for_each_cons. destruct (body s x w) as [[e1|s1] w1] eqn:Hx.
  - intros [= <- <-]. exists x, s, w. split; [by left | done].
  - intros (y & s2 & w2 & Hy & Hbody)%IH. exists y, s2, w2. split; [by right | done].
Qed.

(** The ways in which the attempt on [file] can raise [e]: the upload is
    not a PDF and does not open as a document; the evaluator raises; the
    decoder raises something that is not a [JSONDecodeError]; the decoder
    gives a value that is not an object, and the item assignment raises
    [TypeError]. *)
Definition stops_run (role : string) (file : UploadedFile) (e : exn) : Prop :=
  (endswith ".pdf" (name file) = false /\
   exists w1 w2, docx_paragraphs file w1 = (inl e, w2)) \/
  (exists text w1 w2, analyze_resume_with_llm role text w1 = (inl e, w2)) \/
  (exists llm_output, json_loads llm_output = inl e /\ is_JSONDecodeError e = false) \/
  (exists llm_output v,
     json_loads llm_output = inr v /\ is_dict v = false /\ is_TypeError e = true).

Lemma attempt_raises {A : Type} (role : string) (file : UploadedFile)
    (on_row : pydict -> A) (on_decode_error on_blank : A)
    (w w' : World) (e : exn) :
  (text <- extract_text file ;;
   if truthy (strip text) then
     llm_output <- analyze_resume_with_llm role text ;;
     try_except
       (parsed <- parse_and_tag llm_output file ;; ret (on_row parsed))
       is_JSONDecodeError
       (fun _ => ret on_decode_error)
   else ret on_blank) w = (inl e, w') ->
  stops_run role file e.
Proof.
  unfold bind at 1. destruct (extract_text file w) as [[e0|text] w1] eqn:Hx.
  - intros [= <- <-]. left. unfold extract_text in Hx.
    destruct (endswith ".pdf" (name file)).
    + unfold extract_text_from_pdf in Hx.
      destruct (pdfplumber_pages file w) as [pages w2].
      destruct (negb _); [|done]. by destruct (ocr_pages file w2) as [[imgs|] w3].
    + split; [done|]. unfold extract_text_from_docx, bind, ret in Hx.
      destruct (docx_paragraphs file w) as [[e1|ps] w2] eqn:Hd; [|done].
      injection Hx as <- <-. by exists w, w2.
  - destruct (truthy (strip text)); [|done]. unfold bind at 1.
    destruct (analyze_resume_with_llm role text w1) as [[e0|llm_output] w2] eqn:Ha.
    + intros [= <- <-]. right; left. by exists text, w1, w2.
    + unfold try_except, parse_and_tag, bind, lift, ret, raise.
      destruct (json_loads llm_output) as [e0|v] eqn:Hl.
      * destruct (is_JSONDecodeError e0) eqn:Hd; [done|].
        intros [= <- <-]. right; right; left. by exists llm_output.
      * destruct v; simpl; try done;
          intros [= <- <-]; right; right; right; by eexists llm_output, _.
Qed.

(** X8.  A run either returns a result set with as many rows as there are
    uploads, or raises while working on one of the uploads, for one of four
    reasons: that upload is not a PDF and does not open as a document, the
    evaluator raises, the decoder raises something other than a
    JSONDecodeError, or the response decodes to a value that is not an
    object. *)
Theorem screen_outcomes (role : string) (files : list UploadedFile) (w : World) :
  (exists results w',
     screen role files w = (inr results, w') /\ length results = length files) \/
  (exists e w' file,
     screen role files w = (inl e, w') /\ file ∈ files /\ stops_run role file e).
Proof.
  destruct (screen role files w) as [[e|results] w'] eqn:Hrun.
  - right. exists e, w'. unfold screen, bind in Hrun.
    destruct (pass1 role files w) as [[e1|[r1 failed]] w1] eqn:Hp1.
    + injection Hrun as <- <-. unfold pass1 in Hp1.
      apply for_each_raises in Hp1 as (file & [r0 f0] & w0 & Hin & Hstep).
      exists file. split; [done|]. split; [done|].
      exact (attempt_raises role file (fun parsed => (r0 ++ [parsed], f0))
               (r0, f0 ++ [file]) (r0, f0 ++ [file]) w0 w1 _ Hstep).
    + cbn [fst snd] in Hrun. destruct failed as [|f failed]; [done|].
      unfold pass2 in Hrun.
      apply for_each_raises in Hrun as (file & r0 & w0 & Hin & Hstep).
      apply pass1_loop_shape in Hp1 as (r1' & f1' & _ & Hf & _ & Hsub).
      simpl in Hf. subst f1'.
      exists file. split; [done|]. split; [by eapply elem_of_sublist|].
      exact (attempt_raises role file (fun parsed => r0 ++ [parsed])
               (r0 ++ [two_attempts_verdict (name file)])
               (r0 ++ [unreadable_verdict (name file)]) w0 w' e Hstep).
  - left. exists results, w'. split; [done|]. by apply (screen_rows role files w w').
Qed.

(** X9.  Also when file names repeat, a run that returns has one row per
    uploaded file: the names on the rows are the names of the uploads, with
    the same multiplicities. *)
Theorem one_row_per_upload (role : string) (files : list UploadedFile)
    (w w' : World) (results : list pydict) :
  screen role files w = (inr results, w') ->
  filenames results ≡ₚ names files /\ length results = length files.
Proof. apply screen_rows. Qed.

(** *** Applicant mode *)

Inductive applicant_message : Type :=
| PassedScreening
| DidNotPass
| CouldNotParse
| CouldNotRead.

(** [parsed.get(k, default)] on whatever [json.loads] returned: only a
    [dict] has the method. *)
Definition get_method (parsed : pyval) (k : string) (default : pyval) : exn + pyval :=
  match parsed with
  | PDict d => inr (PyDict.get_default k default d)
  | _ => inl (AttributeError "object has no attribute 'get'")
  end.

(** [score >= 6]; a boolean counts as 0 or 1, and what is not a number
    cannot be compared with an integer. *)
Definition at_least_six (score : pyval) : exn + bool :=
  match score with
  | PInt z => inr (6 <=? z)
  | PFloat f => inr (6 <=? f)%float
  | PBool _ => inr false
  | _ => inl (TypeError "'>=' not supported")
  end.

(** The [try] statement of the applicant branch. *)
Definition applicant_verdict (output : string) : M applicant_message :=
  try_except
    (parsed <- lift (json_loads output) ;;
     score <- lift (get_method parsed "weighted_average" (PInt 0)) ;;
     passed <- lift (at_least_six score) ;;
     ret (if passed : bool then PassedScreening else DidNotPass))
    is_JSONDecodeError
    (fun _ => ret CouldNotParse).

(** The block under [if uploaded and role:]. *)
Definition applicant_view (role : string) (uploaded : UploadedFile) : M applicant_message :=
  text <- extract_text uploaded ;;
  if truthy text then
    output <- analyze_resume_with_llm role text ;;
    applicant_verdict output
  else ret CouldNotRead.

(** X10.  What an applicant is told depends on the response only through
    its weighted_average: two decoded objects with the same entry under that
    key (or both without one) give the same message or the same error,
    whatever their verdict and reasoning say. *)
Theorem applicant_message_ignores_verdict (output output' : string)
    (d d' : pydict) (w : World) :
  json_loads output = inr (PDict d) ->
  json_loads output' = inr (PDict d') ->
  PyDict.get "weighted_average" d = PyDict.get "weighted_average" d' ->
  applicant_verdict output w = applicant_verdict output' w.
Proof.
  intros H H' Hwa. unfold applicant_verdict, try_except, bind, lift.
  rewrite H, H'. simpl. unfold PyDict.get_default. by rewrite Hwa.
Qed.

End Pipeline.

(** *** A scripted world, to run the pipeline on *)

(** The outcomes the two provider endpoints will give, in call order. *)
Record Script : Type :=
  { responses_queue : list (exn + string); chat_queue : list (exn + string) }.

Definition scripted_responses (_ : Request) : M Script string :=
  fun w =>
    match responses_queue w with
    | [] => (inl (Exception "no reply scripted"), w)
    | r :: rest => (r, {| responses_queue := rest; chat_queue := chat_queue w |})
    end.

Definition scripted_chat (_ : Request) : M Script string :=
  fun w =>
    match chat_queue w with
    | [] => (inl (Exception "no reply scripted"), w)
    | r :: rest => (r, {| responses_queue := responses_queue w; chat_queue := rest |})
    end.

(** Documents whose only page, or only paragraph, is the upload's bytes,
    and an OCR engine that is not installed. *)
Definition one_page (file : UploadedFile) (w : Script) : list (option string) * Script :=
  ([Some (data file)], w).
Definition no_ocr (_ : UploadedFile) (w : Script) : option (list string) * Script :=
  (None, w).
Definition one_paragraph (file : UploadedFile) : M Script (list string) :=
  ret [data file].

(** A decoder that knows the empty object and the empty array. *)
Definition tiny_loads (s : string) : exn + pyval :=
  if String.eqb s "{}" then inr (PDict [])
  else if String.eqb s "[]" then inr (PList [])
  else inl (JSONDecodeError "Expecting value").

Definition tiny_float_repr (_ : float) : string := "nan".

Definition demo_analyze : string -> string -> M Script string :=
  analyze_resume_with_llm Script scripted_responses scripted_chat tiny_float_repr.

Definition demo_pass1_step :=
  pass1_step Script scripted_responses scripted_chat tiny_float_repr tiny_loads
    one_page no_ocr one_paragraph.

Definition demo_pass2_step :=
  pass2_step Script scripted_responses scripted_chat tiny_float_repr tiny_loads
    one_page no_ocr one_paragraph.

Definition demo_screen : string -> list UploadedFile -> M Script (list pydict) :=
  screen Script scripted_responses scripted_chat tiny_float_repr tiny_loads
    one_page no_ocr one_paragraph.

(** Three uploads: one that parses at once, one without text, one whose
    response never parses. *)
Definition file_a : UploadedFile := {| name := "a.pdf"; data := "ten years of Rocq" |}.
Definition file_b : UploadedFile := {| name := "b.pdf"; data := "   " |}.
Definition file_c : UploadedFile := {| name := "c.docx"; data := "five years of OCaml" |}.
Definition demo_files : list UploadedFile := [file_a; file_b; file_c].

Definition demo_world : Script :=
  {| responses_queue := [inr "{}"; inr "Sure! Here is the JSON"; inr "Sorry, I cannot"];
     chat_queue := [] |}.

Definition spent_world : Script := {| responses_queue := []; chat_queue := [] |}.

Definition demo_results : list pydict :=
  [ [("filename", PStr "a.pdf")];
    unreadable_verdict "b.pdf";
    two_attempts_verdict "c.docx" ].

Example demo_run : demo_screen "Proof Engineer" demo_files demo_world = (inr demo_results, spent_world).
Proof. reflexivity. Qed.

(** The first call meets an SDK that rejects [response_format]; the chat
    endpoint is down. *)
Definition fallback_down : Script :=
  {| responses_queue := [inl (TypeError "unexpected keyword argument")];
     chat_queue := [inl (Exception "Connection error.")] |}.

(** The same, with a chat endpoint that answers with the empty object. *)
Definition fallback_up : Script :=
  {| responses_queue := [inl (TypeError "unexpected keyword argument")];
     chat_queue := [inr "{}"] |}.

(** The first call fails with something else. *)
Definition rate_limited : Script :=
  {| responses_queue := [inl (Exception "Rate limit reached")]; chat_queue := [] |}.

(** *** Runs that witness the theorems *)

Lemma results_in_terminal_order_demo :
  exists r1 failed w1 r2,
    pass1 Script scripted_responses scripted_chat tiny_float_repr tiny_loads
      one_page no_ocr one_paragraph "Proof Engineer" demo_files demo_world
      = (inr (r1, failed), w1) /\
    demo_results = r1 ++ r2 /\
    filenames demo_results = filenames r1 ++ names failed /\
    Interleave (filenames r1) (names failed) (names demo_files) /\
    sublist (filenames r1) (names demo_files) /\
    sublist failed demo_files /\
    filenames r2 = names failed /\
    (forall i row, r2 !! i = Some row ->
       demo_results !! (length r1 + i)%nat = Some row /\
       exists f, failed !! i = Some f /\ filename_of row = Some (name f)).
Proof.
  exact (results_in_terminal_order Script scripted_responses scripted_chat
           tiny_float_repr tiny_loads one_page no_ocr one_paragraph
           "Proof Engineer" demo_files demo_world spent_world demo_results
           eq_refl).
Defined.

Lemma demo_names_distinct : NoDup (map name demo_files).
Proof.
  apply (bool_decide_unpack (NoDup (map name demo_files))). vm_compute. exact I.
Defined.

Lemma one_verdict_per_filename_demo :
  length demo_results = length demo_files /\
  (forall f, f ∈ demo_files ->
     length (filter (fun row => filename_of row = Some (name f)) demo_results) = 1%nat) /\
  (forall row, row ∈ demo_results ->
     exists f, f ∈ demo_files /\ filename_of row = Some (name f)) /\
  exists r1 failed w1 r2,
    pass1 Script scripted_responses scripted_chat tiny_float_repr tiny_loads
      one_page no_ocr one_paragraph "Proof Engineer" demo_files demo_world
      = (inr (r1, failed), w1) /\
    demo_results = r1 ++ r2 /\
    filenames r2 = names failed /\
    forall f, f ∈ demo_files ->
      (Some (name f) ∈ filenames r1 /\ Some (name f) ∉ names failed) \/
      (Some (name f) ∈ names failed /\ Some (name f) ∉ filenames r1).
Proof.
  exact (one_verdict_per_filename Script scripted_responses scripted_chat
           tiny_float_repr tiny_loads one_page no_ocr one_paragraph
           "Proof Engineer" demo_files demo_world spent_world demo_results
           demo_names_distinct eq_refl).
Defined.

Definition row_a : pydict := [("filename", PStr "a.pdf")].

(** The world after the first response has been used. *)
Definition two_left : Script :=
  {| responses_queue := [inr "Sure! Here is the JSON"; inr "Sorry, I cannot"];
     chat_queue := [] |}.

Definition one_left : Script :=
  {| responses_queue := [inr "Sorry, I cannot"]; chat_queue := [] |}.

Lemma twice_unparsed_demo :
  [file_b; file_c] !! 1%nat = Some file_c /\
  exists row,
    demo_results !! 2%nat = Some row /\
    filename_of row = Some "c.docx"%string /\
    PyDict.get "weighted_average" row = Some (PInt 0) /\
    PyDict.get "verdict" row = Some (PStr "FAIL") /\
    PyDict.get "reasoning" row =
      Some (PStr "Resume could not be parsed after two attempts.").
Proof.
  apply (twice_unparsed_gets_two_attempts_verdict Script scripted_responses
           scripted_chat tiny_float_repr tiny_loads one_page no_ocr one_paragraph
           "Proof Engineer" demo_files demo_world 2 file_c
           ([row_a], [file_b]) two_left one_left
           [row_a] [file_b; file_c] one_left
           [row_a; unreadable_verdict "b.pdf"] one_left spent_world
           demo_results spent_world).
  - reflexivity.
  - reflexivity.
  - exists "five years of OCaml"%string, two_left, "Sure! Here is the JSON"%string,
      "Expecting value"%string. repeat split.
  - reflexivity.
  - reflexivity.
  - exists "five years of OCaml"%string, one_left, "Sorry, I cannot"%string,
      "Expecting value"%string. repeat split.
  - reflexivity.
Defined.

Lemma twice_unreadable_demo :
  demo_pass1_step "Proof Engineer" ([row_a], []) file_b two_left
    = (inr ([row_a], [file_b]), two_left) /\
  [file_b; file_c] !! 0%nat = Some file_b /\
  exists row,
    demo_results !! 1%nat = Some row /\
    filename_of row = Some "b.pdf"%string /\
    PyDict.get "weighted_average" row = Some (PInt 0) /\
    PyDict.get "verdict" row = Some (PStr "FAIL") /\
    PyDict.get "reasoning" row =
      Some (PStr "Unreadable or empty resume text (after retry).").
Proof.
  apply (twice_unreadable_gets_after_retry_verdict Script scripted_responses
           scripted_chat tiny_float_repr tiny_loads one_page no_ocr one_paragraph
           "Proof Engineer" demo_files demo_world 1 file_b
           ([row_a], []) two_left two_left
           [row_a] [file_b; file_c] one_left
           [row_a] one_left one_left
           demo_results spent_world).
  - reflexivity.
  - reflexivity.
  - exists ""%string. split; reflexivity.
  - reflexivity.
  - reflexivity.
  - exists ""%string. split; reflexivity.
  - reflexivity.
Defined.

(** The claim C4 quotes the reasoning without its ending: on an upload
    without text the recorded reasoning is another string. *)
Lemma unreadable_reasoning_has_suffix :
  demo_screen "Proof Engineer" [file_b] spent_world
    = (inr [unreadable_verdict "b.pdf"], spent_world) /\
  PyDict.get "reasoning" (unreadable_verdict "b.pdf")
    = Some (PStr "Unreadable or empty resume text (after retry).") /\
  String.eqb "Unreadable or empty resume text (after retry)."
             "Unreadable or empty resume text" = false.
Proof. repeat split. Qed.

(** The claim C2 says that no provider error escapes the evaluator and
    that each one becomes the FAIL text: when the first call raises
    [TypeError] the chat call's error leaves the evaluator, and the chat
    call's answer, when there is one, is returned as it is. *)
Lemma evaluator_raises_when_fallback_fails :
  scripted_responses (responses_request "Proof Engineer" "ten years of Rocq") fallback_down
    = (inl (TypeError "unexpected keyword argument"),
       {| responses_queue := []; chat_queue := [inl (Exception "Connection error.")] |}) /\
  demo_analyze "Proof Engineer" "ten years of Rocq" fallback_down
    = (inl (Exception "Connection error."), spent_world) /\
  demo_analyze "Proof Engineer" "ten years of Rocq" fallback_up
    = (inr "{}"%string, spent_world).
Proof. repeat split. Qed.

Lemma evaluator_recovers_demo :
  demo_analyze "Proof Engineer" "ten years of Rocq" rate_limited
    = (inr (error_verdict_json (Exception "Rate limit reached")), spent_world) /\
  demo_analyze "Proof Engineer" "ten years of Rocq" fallback_up
    = (inr "{}"%string, spent_world).
Proof.
  split.
  - destruct (evaluator_recovers_provider_error Script scripted_responses
                scripted_chat tiny_float_repr
                "Proof Engineer" "ten years of Rocq" rate_limited spent_world
                (Exception "Rate limit reached") eq_refl) as [H _].
    destruct (H eq_refl) as [Hrun _]. exact Hrun.
  - destruct (evaluator_recovers_provider_error Script scripted_responses
                scripted_chat tiny_float_repr
                "Proof Engineer" "ten years of Rocq" fallback_up
                {| responses_queue := []; chat_queue := [inr "{}"%string] |}
                (TypeError "unexpected keyword argument") eq_refl) as [_ H].
    exact (H eq_refl "{}"%string spent_world eq_refl).
Defined.

Fixpoint repeat_char (n : nat) (c : ascii) : string :=
  match n with
  | O => EmptyString
  | S n' => String c (repeat_char n' c)
  end.

Lemma resume_text_truncated_demo :
  user_content "Proof Engineer" (repeat_char 8000 "a" +:+ "and a ninth page")
    = prompt "Proof Engineer" +:+ newline +:+ "Resume:" +:+ newline
        +:+ repeat_char 8000 "a" /\
  responses_request "Proof Engineer" (repeat_char 8000 "a" +:+ "and a ninth page")
    = responses_request "Proof Engineer" (repeat_char 8000 "a" +:+ "") /\
  chat_request "Proof Engineer" (repeat_char 8000 "a" +:+ "and a ninth page")
    = chat_request "Proof Engineer" (repeat_char 8000 "a" +:+ "") /\
  demo_analyze "Proof Engineer" (repeat_char 8000 "a" +:+ "and a ninth page")
    = demo_analyze "Proof Engineer" (repeat_char 8000 "a" +:+ "") /\
  forall text, (String.length (str_take 8000 text) <= 8000)%nat.
Proof.
  apply (resume_text_truncated Script scripted_responses scripted_chat
           tiny_float_repr "Proof Engineer" (repeat_char 8000 "a")
           "and a ninth page" "").
  vm_compute. reflexivity.
Defined.

(** *** Runs for the further properties *)

(** A decoder that knows two objects, the second with a [filename] of its
    own, and rejects every other text. *)
Definition canned_loads (s : string) : exn + pyval :=
  if String.eqb s "A" then
    inr (PDict [("weighted_average", PInt 5); ("verdict", PStr "PASS")])
  else if String.eqb s "B" then
    inr (PDict [("filename", PStr "cv.pdf"); ("weighted_average", PInt 5);
                ("verdict", PStr "FAIL")])
  else inl (JSONDecodeError "Expecting value").

Lemma parse_and_tag_keeps_fields_demo :
  exists d,
    canned_loads "B" = inr (PDict d) /\
    spent_world = spent_world /\
    PyDict.get "filename"
      [("filename", PStr "a.pdf"); ("weighted_average", PInt 5); ("verdict", PStr "FAIL")]
      = Some (PStr (name file_a)) /\
    (forall k, k <> "filename"%string ->
       PyDict.get k [("filename", PStr "a.pdf"); ("weighted_average", PInt 5);
                     ("verdict", PStr "FAIL")] = PyDict.get k d) /\
    length [("filename", PStr "a.pdf"); ("weighted_average", PInt 5);
            ("verdict", PStr "FAIL")]
      = match PyDict.get "filename" d with
        | Some _ => length d
        | None => S (length d)
        end.
Proof.
  exact (parse_and_tag_keeps_fields Script canned_loads "B" file_a
           spent_world spent_world _ eq_refl).
Defined.

Lemma evaluator_raises_only_from_fallback_demo :
  exists e0 w1,
    scripted_responses (responses_request "Proof Engineer" "ten years of Rocq")
      fallback_down = (inl e0, w1) /\
    is_TypeError e0 = true /\
    scripted_chat (chat_request "Proof Engineer" "ten years of Rocq") w1
      = (inl (Exception "Connection error."), spent_world).
Proof.
  exact (evaluator_raises_only_from_fallback Script scripted_responses
           scripted_chat tiny_float_repr "Proof Engineer" "ten years of Rocq"
           fallback_down spent_world (Exception "Connection error.") eq_refl).
Defined.

Lemma extract_text_from_pdf_total_demo :
  exists text w',
    extract_text_from_pdf Script one_page no_ocr file_a demo_world = (inr text, w') /\
    strip text = text /\
    truthy (strip text) = truthy text /\
    (truthy (strip (page_text [Some (data file_a)])) = true ->
       text = strip (page_text [Some (data file_a)]) /\ w' = demo_world).
Proof.
  exact (extract_text_from_pdf_total Script one_page no_ocr file_a demo_world
           demo_world [Some (data file_a)] eq_refl).
Defined.

(** The second response is a JSON array. *)
Definition array_world : Script :=
  {| responses_queue := [inr "{}"; inr "[]"; inr "{}"]; chat_queue := [] |}.

Lemma non_object_response_aborts_demo :
  exists msg,
    demo_screen "Proof Engineer" ([file_a] ++ file_c :: [file_b]) array_world
      = (inl (TypeError msg), {| responses_queue := [inr "{}"]; chat_queue := [] |}).
Proof.
  apply (non_object_response_aborts Script scripted_responses scripted_chat
           tiny_float_repr tiny_loads one_page no_ocr one_paragraph
           "Proof Engineer" [file_a] [file_b] file_c ([row_a], [])
           array_world
           {| responses_queue := [inr "[]"; inr "{}"]; chat_queue := [] |}
           {| responses_queue := [inr "[]"; inr "{}"]; chat_queue := [] |}
           {| responses_queue := [inr "{}"]; chat_queue := [] |}
           "five years of OCaml" "[]" (PList []));
    reflexivity.
Defined.

(** Two uploads with one name. *)
Definition twin_files : list UploadedFile := [file_a; file_b; file_a].

Definition twin_world : Script :=
  {| responses_queue := [inr "{}"; inr "{}"]; chat_queue := [] |}.

Lemma one_row_per_upload_demo :
  filenames [row_a; row_a; unreadable_verdict "b.pdf"] ≡ₚ names twin_files /\
  length [row_a; row_a; unreadable_verdict "b.pdf"] = length twin_files.
Proof.
  exact (one_row_per_upload Script scripted_responses scripted_chat
           tiny_float_repr tiny_loads one_page no_ocr one_paragraph
           "Proof Engineer" twin_files twin_world spent_world _ eq_refl).
Defined.

Lemma applicant_message_ignores_verdict_demo :
  applicant_verdict Script canned_loads "A" spent_world
    = applicant_verdict Script canned_loads "B" spent_world.
Proof.
  exact (applicant_message_ignores_verdict Script canned_loads "A" "B"
           _ _ spent_world eq_refl eq_refl eq_refl).
Defined.

End Screening.

(** ** The export step of [resume_screening_app.py] *)

Module Exporter.

(** [float(z)]: the nearest double, ties to even (for the integers pandas
    keeps in a numeric column, those of 64 bits). *)
Definition float_of_int (z : Z) : float :=
  SF2Prim (binary_normalize prec emax z 0 false).

(** The [weighted_average] cell of a row in the frame [pd.DataFrame(results)]
    when the column is numeric: a number as a double, a missing key or
    [None] as NaN.  A string, a boolean, a list or a dict in the column makes
    pandas keep Python objects instead; [None] here. *)
Definition numeric_cell (row : pydict) : option float :=
  match PyDict.get "weighted_average" row with
  | None | Some PNone => Some nan
  | Some (PFloat f) => Some f
  | Some (PInt z) => Some (float_of_int z)
  | Some _ => None
  end.

Definition weighted_average_cell (row : pydict) : float :=
  match numeric_cell row with Some f => f | None => nan end.

Definition is_na (row : pydict) : bool := is_nan (weighted_average_cell row).

(** Descending insertion that keeps the earlier of two equal keys first. *)
Fixpoint insert_desc (row : pydict) (sorted : list pydict) : list pydict :=
  match sorted with
  | [] => [row]
  | y :: rest =>
      if (weighted_average_cell row <? weighted_average_cell y)%float
      then y :: insert_desc row rest
      else row :: sorted
  end.

Fixpoint sort_desc (rows : list pydict) : list pydict :=
  match rows with
  | [] => []
  | row :: rest => insert_desc row (sort_desc rest)
  end.

(** [df.sort_values(by="weighted_average", ascending=False)] on a numeric
    column: the rows with a number by decreasing value, then the rows
    without one ([na_position="last"]).  pandas does not promise an order
    among rows with equal values; this sort keeps them in frame order. *)
Definition sort_values_desc (rows : list pydict) : list pydict :=
  sort_desc (List.filter (fun r => negb (is_na r)) rows) ++ List.filter is_na rows.

(** Some row has the key, so the frame has the column. *)
Definition has_column (k : string) (rows : list pydict) : bool :=
  existsb (fun r => match PyDict.get k r with Some _ => true | None => false end) rows.

Definition is_numeric (row : pydict) : bool :=
  match numeric_cell row with Some _ => true | None => false end.

(** What the block under [if results:] puts on the page. *)
Inductive frame_outcome : Type :=
| Shown (rows : list pydict)
| Raised (e : exn)
| ObjectColumn.

Definition show_results (results : list pydict) : option frame_outcome :=
  match results with
  | [] => None
  | _ :: _ =>
      Some
        (if negb (has_column "weighted_average" results)
         then Raised (KeyError "weighted_average")
         else if negb (forallb is_numeric results) then ObjectColumn
         else if forallb (fun c => has_column c results) ["filename"; "verdict"; "reasoning"]
         then Shown (sort_values_desc results)
         else Raised (KeyError "not in index"))
  end.

(** A row shaped as the specification's Verdict: the four fields, with a
    number that is not NaN for the score. *)
Definition verdict_shaped (row : pydict) : bool :=
  match numeric_cell row, PyDict.get "weighted_average" row,
        PyDict.get "filename" row, PyDict.get "verdict" row,
        PyDict.get "reasoning" row with
  | Some f, Some _, Some _, Some _, Some _ => negb (is_nan f)
  | _, _, _, _, _ => false
  end.

(** [xs] never goes up. *)
Definition non_increasing (xs : list float) : Prop :=
  Sorted (fun a b => (b <=? a)%float = true) xs.

Definition scored (name : string) (score : float) : pydict :=
  [ ("weighted_average", PFloat score); ("verdict", PStr "PASS");
    ("reasoning", PStr "fits the role"); ("filename", PStr name) ].

Definition three_rows : list pydict :=
  [ scored "x.pdf" 3.2; scored "y.pdf" 9.1; scored "z.pdf" 6.0 ].

(** *** Order on doubles *)

Lemma SFcompare_swap (x y : spec_float) :
  SFcompare y x = option_map CompOpp (SFcompare x y).
Proof.
  destruct x as [sx|sx| |sx mx ex], y as [sy|sy| |sy my ey]; simpl; try done;
    try (by destruct sx); try (by destruct sy); try (by destruct sx, sy).
  destruct sx, sy; try done; rewrite (Z.compare_antisym ex ey);
    destruct (ex ?= ey)%Z; simpl; try done;
    rewrite (Pos.compare_cont_antisym mx my Eq); simpl;
    by rewrite ?CompOpp_involutive.
Qed.

Lemma not_nan_Prim2SF (x : float) : is_nan x = false -> Prim2SF x <> S754_nan.
Proof.
  unfold is_nan. rewrite FloatAxioms.eqb_spec. intros H Hx. rewrite Hx in H. discriminate H.
Qed.

Lemma SFcompare_not_nan (x y : spec_float) :
  x <> S754_nan -> y <> S754_nan -> SFcompare x y <> None.
Proof. destruct x, y; simpl; congruence. Qed.

Lemma ltb_leb (x y : float) : (x <? y)%float = true -> (x <=? y)%float = true.
Proof.
  rewrite FloatAxioms.ltb_spec, FloatAxioms.leb_spec. unfold SFltb, SFleb.
  by destruct (SFcompare (Prim2SF x) (Prim2SF y)) as [[]|].
Qed.

Lemma not_ltb_leb (x y : float) :
  is_nan x = false -> is_nan y = false ->
  (x <? y)%float = false -> (y <=? x)%float = true.
Proof.
  intros Hx%not_nan_Prim2SF Hy%not_nan_Prim2SF.
  rewrite FloatAxioms.ltb_spec, FloatAxioms.leb_spec. unfold SFltb, SFleb.
  rewrite (SFcompare_swap (Prim2SF x) (Prim2SF y)).
  pose proof (SFcompare_not_nan _ _ Hx Hy).
  by destruct (SFcompare (Prim2SF x) (Prim2SF y)) as [[]|].
Qed.

(** *** The sort *)

Definition goes_down (a b : pydict) : Prop :=
  (weighted_average_cell b <=? weighted_average_cell a)%float = true.

Lemma insert_desc_perm (row : pydict) (rows : list pydict) :
  insert_desc row rows ≡ₚ row :: rows.
Proof.
  induction rows as [|y rows IH]; simpl; [done|].
  destruct (_ <? _)%float; [|done]. rewrite IH. apply Permutation_swap.
Qed.

Lemma sort_desc_perm (rows : list pydict) : sort_desc rows ≡ₚ rows.
Proof.
  induction rows as [|row rows IH]; simpl; [done|].
  by rewrite insert_desc_perm, IH.
Qed.

Lemma filter_partition_perm (p : pydict -> bool) (rows : list pydict) :
  List.filter (fun r => negb (p r)) rows ++ List.filter p rows ≡ₚ rows.
Proof.
  induction rows as [|row rows IH]; simpl; [done|].
  destruct (p row); simpl.
  - rewrite <- Permutation_middle. by rewrite IH.
  - by rewrite IH.
Qed.

Lemma sort_values_desc_perm (rows : list pydict) : sort_values_desc rows ≡ₚ rows.
Proof.
  unfold sort_values_desc. rewrite sort_desc_perm. apply filter_partition_perm.
Qed.

Lemma insert_desc_HdRel (y row : pydict) (rows : list pydict) :
  goes_down y row -> HdRel goes_down y rows -> HdRel goes_down y (insert_desc row rows).
Proof.
  intros Hrow Hhd. destruct rows as [|z rows]; simpl; [by constructor|].
  destruct (_ <? _)%float; constructor; [|done]. by inversion Hhd.
Qed.

Lemma insert_desc_sorted (row : pydict) (rows : list pydict) :
  is_na row = false -> Forall (fun r => is_na r = false) rows ->
  Sorted goes_down rows -> Sorted goes_down (insert_desc row rows).
Proof.
  intros Hrow. induction rows as [|y rows IH]; simpl; intros Hna Hs.
  - repeat constructor.
  - apply Forall_cons in Hna as [Hy Hna]. apply Sorted_inv in Hs as [Hs Hhd].
    destruct (_ <? _)%float eqn:Hlt.
    + constructor; [by apply IH|].
      apply insert_desc_HdRel; [|done]. by apply ltb_leb.
    + constructor; [by constructor|]. constructor.
      by apply not_ltb_leb.
Qed.

Lemma sort_desc_sorted (rows : list pydict) :
  Forall (fun r => is_na r = false) rows -> Sorted goes_down (sort_desc rows).
Proof.
  induction rows as [|row rows IH]; simpl; intros Hna; [constructor|].
  apply Forall_cons in Hna as [Hrow Hna].
  apply insert_desc_sorted; [done| |by apply IH].
  apply Forall_forall. intros r Hr. rewrite Forall_forall in Hna. apply Hna.
  by rewrite <- (sort_desc_perm rows).
Qed.

Lemma Sorted_cells (rows : list pydict) :
  Sorted goes_down rows -> non_increasing (map weighted_average_cell rows).
Proof.
  unfold non_increasing. induction 1 as [|row rows Hs IH Hhd]; simpl; constructor; [done|].
  destruct Hhd; simpl; by constructor.
Qed.

Lemma filter_all (p : pydict -> bool) (rows : list pydict) :
  forallb p rows = true -> List.filter p rows = rows.
Proof.
  induction rows as [|row rows IH]; simpl; [done|].
  intros [Hr Hrest]%andb_true_iff. by rewrite Hr, IH.
Qed.

Lemma filter_none (p : pydict -> bool) (rows : list pydict) :
  forallb (fun r => negb (p r)) rows = true -> List.filter p rows = [].
Proof.
  induction rows as [|row rows IH]; simpl; [done|].
  intros [Hr Hrest]%andb_true_iff. apply negb_true_iff in Hr. by rewrite Hr, IH.
Qed.

Lemma verdict_shaped_facts (row : pydict) :
  verdict_shaped row = true ->
  is_numeric row = true /\ is_na row = false /\
  forall c, In c ["weighted_average"; "filename"; "verdict"; "reasoning"]%string ->
            PyDict.get c row <> None.
Proof.
  unfold verdict_shaped, is_numeric, is_na, weighted_average_cell.
  destruct (numeric_cell row) as [f|]; [|done].
  destruct (PyDict.get "weighted_average" row) eqn:H1; [|done].
  destruct (PyDict.get "filename" row) eqn:H2; [|done].
  destruct (PyDict.get "verdict" row) eqn:H3; [|done].
  destruct (PyDict.get "reasoning" row) eqn:H4; [|done].
  intros Hnan%negb_true_iff. split; [done|]. split; [done|].
  intros c [<-|[<-|[<-|[<-|[]]]]]; congruence.
Qed.

Lemma has_column_first (c : string) (row : pydict) (rows : list pydict) :
  PyDict.get c row <> None -> has_column c (row :: rows) = true.
Proof. unfold has_column. simpl. by destruct (PyDict.get c row). Qed.

(** C7.  On a non-empty result set whose rows are shaped as verdicts (the
    four fields, a number that is not NaN as weighted_average) the export
    step shows a frame, the frame has the rows of the result set and no
    others, and its weighted_average column never goes up from one row to
    the next.  In particular the rows with scores 3.2, 9.1 and 6.0 are shown
    in the order 9.1, 6.0, 3.2. *)
Theorem exporter_sorts_descending :
  (forall results : list pydict,
     results <> [] ->
     forallb verdict_shaped results = true ->
     exists rows,
       show_results results = Some (Shown rows) /\
       rows = sort_values_desc results /\
       rows ≡ₚ results /\
       non_increasing (map weighted_average_cell rows)) /\
  map weighted_average_cell three_rows = [3.2; 9.1; 6.0]%float /\
  show_results three_rows
    = Some (Shown [scored "y.pdf" 9.1; scored "z.pdf" 6.0; scored "x.pdf" 3.2]) /\
  map weighted_average_cell (sort_values_desc three_rows) = [9.1; 6.0; 3.2]%float.
Proof.
  split; [|by vm_compute].
  intros results Hne Hshape. exists (sort_values_desc results).
  assert (Hall : Forall (fun r => verdict_shaped r = true) results).
  { apply Forall_forall. intros r Hr. rewrite forallb_forall in Hshape.
    apply Hshape. by apply list_elem_of_In. }
  assert (Hnum : forallb is_numeric results = true).
  { apply forallb_forall. intros r Hr%list_elem_of_In.
    rewrite Forall_forall in Hall. by apply verdict_shaped_facts, Hall. }
  assert (Hna : Forall (fun r => is_na r = false) results).
  { eapply Forall_impl; [exact Hall|]. intros r Hr. by apply verdict_shaped_facts. }
  assert (Hnone : List.filter is_na results = []).
  { apply filter_none. apply forallb_forall. intros r Hr%list_elem_of_In.
    rewrite Forall_forall in Hna. by rewrite (Hna r Hr). }
  assert (Hkeep : List.filter (fun r => negb (is_na r)) results = results).
  { apply filter_all. apply forallb_forall. intros r Hr%list_elem_of_In.
    rewrite Forall_forall in Hna. by rewrite (Hna r Hr). }
  split; [|split; [done|split; [apply sort_values_desc_perm|]]].
  - destruct results as [|row rows]; [done|]. unfold show_results.
    apply Forall_cons in Hall as [Hrow _].
    destruct (verdict_shaped_facts row Hrow) as (_ & _ & Hcols).
    rewrite has_column_first by (apply Hcols; simpl; tauto).
    rewrite Hnum. cbn [forallb negb].
    rewrite !has_column_first by (apply Hcols; simpl; tauto). done.
  - unfold sort_values_desc. rewrite Hnone, Hkeep, app_nil_r.
    by apply Sorted_cells, sort_desc_sorted.
Qed.

(** The theorem on the three rows of the example. *)
Lemma exporter_sorts_three_rows :
  exists rows,
    show_results three_rows = Some (Shown rows) /\
    rows = sort_values_desc three_rows /\
    rows ≡ₚ three_rows /\
    non_increasing (map weighted_average_cell rows).
Proof.
  apply (proj1 exporter_sorts_descending three_rows).
  - discriminate.
  - vm_compute. reflexivity.
Defined.

End Exporter.

(** ** [main.py]: the bulk upload of screening results *)

Module BulkOnboarding.
Import PyStr.

(** A [pandas.DataFrame]: the column labels, and each row as the cells by
    label.  A cell that a row lacks reads as NaN. *)
Record DataFrame : Type := { columns : list string; rows : list pydict }.

(** What the page shows after an upload. *)
Inductive upload_outcome : Type :=
| Rejected (msg : string)
| NonePassed (msg : string)
| Found (passed : DataFrame)
| ProcessingError (msg : string).

Section Bulk.

Variable float_repr : float -> string.
Variable container_repr : pyval -> string.

Abbreviation py_str := (PyObj.py_str float_repr container_repr).

(** [df[col]]. *)
Definition series (col : string) (df : DataFrame) : list pyval :=
  map (PyDict.get_default col (PFloat nan)) (rows df).

(** [.astype(str)], [.str.upper()], [== x], each cell by cell. *)
Definition astype_str (s : list pyval) : list string := map py_str s.
Definition str_upper (s : list string) : list (list N) := map upper s.
Definition eq_mask (s : list (list N)) (x : string) : list bool :=
  map (fun v => eqb_points v (points x)) s.

(** [df[mask]]. *)
Fixpoint boolean_index (rs : list pydict) (mask : list bool) : list pydict :=
  match rs, mask with
  | r :: rs', b :: mask' =>
      if b then r :: boolean_index rs' mask' else boolean_index rs' mask'
  | _, _ => []
  end.

Definition passed_rows (df : DataFrame) : list pydict :=
  boolean_index (rows df) (eq_mask (str_upper (astype_str (series "verdict" df))) "PASS").

(** The [try] block under [if uploaded_results:], up to the point where
    the passed rows are on the page; [read_csv] and [read_excel] are what
    the two pandas readers give on the upload.  The send button, when
    pressed, walks the frame of [Found] row by row. *)
Definition on_upload (file_name : string) (read_csv read_excel : exn + DataFrame)
    : upload_outcome :=
  match (if endswith ".csv" file_name then read_csv else read_excel) with
  | inl e => ProcessingError ("Error processing file: " +:+ str_of_exn e)
  | inr df =>
      if negb (existsb (String.eqb "verdict") (columns df))
      then Rejected "❌ The uploaded file must include a 'verdict' column."
      else
        let passed := {| columns := columns df; rows := passed_rows df |} in
        match rows passed with
        | [] => NonePassed "No passed candidates found in this file."
        | _ :: _ => Found passed
        end
  end.

(** The rows the outcome hands to the notification step. *)
Definition selected (o : upload_outcome) : list pydict :=
  match o with Found passed => rows passed | _ => [] end.

(** *** In the words of the specification *)





End Bulk.

(** *** An upload *)

Definition sample_frame : DataFrame :=
  {| columns := ["filename"; "weighted_average"; "verdict"];
     rows :=
       [ [("filename", PStr "a.pdf"); ("weighted_average", PFloat 8.5); ("verdict", PStr "PASS")];
         [("filename", PStr "b.pdf"); ("weighted_average", PFloat 2); ("verdict", PStr "FAIL")];
         [("filename", PStr "c.pdf"); ("weighted_average", PFloat 7); ("verdict", PStr "Pass")];
         [("filename", PStr "d.pdf"); ("weighted_average", PFloat 0); ("verdict", PFloat nan)];
         [("filename", PStr "e.pdf"); ("weighted_average", PFloat 9); ("verdict", PStr "PASS ")] ] |}.

Definition nan_repr (_ : float) : string := "nan".
Definition no_repr (_ : pyval) : string := "[]".

Example sample_selection :
  selected (on_upload nan_repr no_repr "results.csv" (inr sample_frame) (inl (Exception "not a workbook")))
  = [ [("filename", PStr "a.pdf"); ("weighted_average", PFloat 8.5); ("verdict", PStr "PASS")];
      [("filename", PStr "c.pdf"); ("weighted_average", PFloat 7); ("verdict", PStr "Pass")] ].
Proof. reflexivity. Qed.





End BulkOnboarding.

(** ** [Agents/onboarding_agent.py] *)

Module Onboarding.
Import PyStr Effects.

Definition nl : string := String (ascii_of_N 10) "".

(** The ranges [a-zA-Z] and [0-9] of the pattern below. *)
Definition is_alpha (c : ascii) : bool :=
  (((65 <=? code c) && (code c <=? 90)) || ((97 <=? code c) && (code c <=? 122)))%N.

Definition is_digit (c : ascii) : bool := ((48 <=? code c) && (code c <=? 57))%N.

(** [re.sub(r"[^a-zA-Z0-9\-_]", "", s)]. *)
Fixpoint keep_username_chars (s : string) : string :=
  match s with
  | EmptyString => EmptyString
  | String c s' =>
      if is_alpha c || is_digit c || Ascii.eqb c "-" || Ascii.eqb c "_"
      then String c (keep_username_chars s')
      else keep_username_chars s'
  end.

(** [a or b] on two strings. *)
Definition str_or (a b : string) : string := if truthy a then a else b.

(** [a or b] on an optional string and a string. *)
Definition opt_or (a : option string) (b : string) : string :=
  match a with Some s => str_or s b | None => b end.

(** [item.get(k)]. *)
Definition get (k : string) (item : pydict) : pyval := PyDict.get_default k PNone item.

Section Agent.

Variable World : Type.
Local Abbreviation M := (Effects.M World).

Variable float_repr : float -> string.
Variable container_repr : pyval -> string.
Abbreviation py_str := (PyObj.py_str float_repr container_repr).

(** [re.search] with the e-mail pattern, then [m.group(0)]. *)
Variable search_email : string -> option string.
(** [str.title]. *)
Variable str_title : string -> string.
(** [template.format] with keyword fields, which raises on a field it does
    not know or on unbalanced braces. *)
Variable str_format : string -> list (string * pyval) -> exn + string.
(** Whether [OPENAI_API_KEY] was set when the module was loaded. *)
Variable client_configured : bool.
(** The two provider calls of the plan generator, on the prompt text. *)
Variable plan_responses_create : string -> M string.
Variable plan_chat_create : string -> M string.
(** [send_email_smtp(to, subject, body)] with the defaults of the
    environment: an oracle, which returns a status dict or raises. *)
Variable send_email_smtp : pyval -> string -> string -> M pydict.

Definition extract_email_from_text (text : pyval) : exn + pyval :=
  if negb (PyObj.truthy text) then inr PNone
  else
    match text with
    | PStr s => inr (match search_email s with Some m => PStr m | None => PNone end)
    | _ => inl (TypeError "expected string or bytes-like object")
    end.

Definition guess_email_from_filename (filename : pyval) : string :=
  let username := split_head "." (split_head "@" (py_str filename)) in
  let username := str_or (lower (keep_username_chars username)) "candidate" in
  username +:+ "@" +:+ "example.com".

Definition plan_days : list string :=
  [ "Day 1: Welcome, paperwork, access setup, team intro.";
    "Day 2: Product overview, onboarding docs, basic training.";
    "Day 3: Tools & environment setup, pairing with buddy.";
    "Day 4: Role-specific training sessions.";
    "Day 5: Meet cross-functional team, small task assigned.";
    "Day 6: Feedback session, Q&A with manager.";
    "Day 7: End-of-week review, next steps, goals." ].

Definition plan_prompt (name role : pyval) (start_date : option string) : string :=
  nl +:+ "You are an HR Onboarding Assistant. Create a concise 7-day onboarding plan for a new hire."
  +:+ nl +:+ nl +:+ "Name: " +:+ py_str name
  +:+ nl +:+ "Role: " +:+ py_str role
  +:+ nl +:+ "Start date (if known): " +:+ opt_or start_date "Not provided"
  +:+ nl +:+ nl +:+ "Instructions:"
  +:+ nl +:+ "- Provide a short welcome note."
  +:+ nl +:+ "- Provide Day 1 through Day 7 bullets with times or time windows where appropriate."
  +:+ nl +:+ "- Include tasks, meetings, documents to read, and one manager/buddy check-in per day."
  +:+ nl +:+ "- Keep it actionable and concise (use bullets)."
  +:+ nl +:+ "Return plain text only." +:+ nl.

(** Here the fallback call sits inside the outer [try], so its errors are
    answered too. *)
Definition generate_onboarding_plan_text (name role : pyval) (start_date : option string)
    : M string :=
  let header := "Onboarding Plan for " +:+ py_str name +:+ " — " +:+ py_str role +:+ nl in
  if negb client_configured then
    let plan :=
      header +:+ Json.join nl
        ("Welcome! (automatically generated template because OpenAI not configured)"
           :: ""%string :: plan_days) in
    ret (match start_date with
         | Some d =>
             if truthy d
             then header +:+ "Start date (reported): " +:+ d +:+ nl +:+ nl +:+ plan
             else plan
         | None => plan
         end)
  else
    let prompt := plan_prompt name role start_date in
    try_except
      (text <- try_except (plan_responses_create prompt) is_TypeError
                 (fun _ => plan_chat_create prompt) ;;
       ret (strip text))
      (fun _ => true)
      (fun e =>
         ret ("(Could not generate plan via OpenAI: " +:+ str_of_exn e +:+ ")" +:+ nl +:+ nl
              +:+ Json.join nl plan_days)).

(** The part of the [try] body after the verdict test. *)
Definition build_entry (default_start_date : option string) (send_email : bool)
    (email_subject_template email_body_template : option string)
    (item : pydict) : M pydict :=
  let filename := PyDict.get_default "filename" (PStr "unknown_file") item in
  name_guess <-
    lift (if PyObj.truthy (get "name" item) then inr (get "name" item)
          else match filename with
               | PStr s => inr (PStr (str_title (replace_char "_" " " (split_head "." s))))
               | _ => inl (AttributeError "object has no attribute 'split'")
               end) ;;
  let role :=
    if PyObj.truthy (get "role" item) then get "role" item
    else if PyObj.truthy (get "applied_role" item) then get "applied_role" item
    else PStr "the role" in
  candidate_email <-
    lift (if PyObj.truthy (get "email" item) then inr (get "email" item)
          else if PyObj.truthy (get "contact" item) then inr (get "contact" item)
          else extract_email_from_text (PyDict.get_default "text" (PStr "") item)) ;;
  let candidate_email :=
    if negb (PyObj.truthy candidate_email)
    then PStr (guess_email_from_filename filename)
    else candidate_email in
  plan_text <- generate_onboarding_plan_text name_guess role default_start_date ;;
  let subject :=
    opt_or email_subject_template
      ("Onboarding: Welcome to " +:+ py_str role +:+ " at Company") in
  let composed :=
    "Dear " +:+ py_str name_guess +:+ "," +:+ nl +:+ nl
    +:+ "Congratulations — you have been selected for " +:+ py_str role +:+ "." +:+ nl +:+ nl
    +:+ "Reporting date/time: " +:+ opt_or default_start_date "Please confirm availability"
    +:+ nl +:+ nl +:+ plan_text +:+ nl +:+ nl
    +:+ "Please reply to confirm your availability and if you have any questions."
    +:+ nl +:+ nl +:+ "Best," +:+ nl +:+ "HR Team" in
  body <-
    lift (match email_body_template with
          | Some t =>
              if truthy t
              then str_format t
                     [ ("name", name_guess); ("role", role);
                       ("start_date", PStr (opt_or default_start_date "TBD"));
                       ("plan", PStr plan_text) ]
              else inr composed
          | None => inr composed
          end) ;;
  sent <-
    (if send_email
     then
       send_result <- send_email_smtp candidate_email subject body ;;
       ret (PDict send_result,
            if PyObj.truthy (get "ok" send_result) then "email_sent"%string
            else "email_failed"%string)
     else ret (PNone, "plan_generated"%string)) ;;
  ret [ ("filename", filename);
        ("name", name_guess);
        ("email", candidate_email);
        ("role", role);
        ("plan", PStr plan_text);
        ("email_status", fst sent);
        ("status", PStr (snd sent)) ].

(** The [try] body: [None] is the [continue]. *)
Definition onboard_item (default_start_date : option string) (send_email : bool)
    (email_subject_template email_body_template : option string)
    (item : pydict) : M (option pydict) :=
  let verdict := upper (py_str (PyDict.get_default "verdict" (PStr "") item)) in
  if negb (eqb_points verdict (points "PASS")) then ret None
  else
    entry <- build_entry default_start_date send_email
               email_subject_template email_body_template item ;;
    ret (Some entry).

(** The dict of the [except Exception as e] branch. *)
Definition error_entry (item : pydict) (e : exn) : pydict :=
  [ ("filename", PyDict.get_default "filename" (PStr "unknown") item);
    ("status", PStr "error");
    ("error", PStr (str_of_exn e)) ].

Definition loop_body (default_start_date : option string) (send_email : bool)
    (email_subject_template email_body_template : option string)
    (processed : list pydict) (item : pydict) : M (list pydict) :=
  try_except
    (r <- onboard_item default_start_date send_email
            email_subject_template email_body_template item ;;
     ret (match r with
          | Some entry => processed ++ [entry]
          | None => processed
          end))
    (fun _ => true)
    (fun e => ret (processed ++ [error_entry item e])).

Definition onboard_selected_candidates (screening_results : list pydict)
    (default_start_date : option string) (send_email : bool)
    (email_subject_template email_body_template : option string)
    : M (list pydict) :=
  for_each (loop_body default_start_date send_email
              email_subject_template email_body_template)
           screening_results [].

(** The plan generator answers every error of its provider calls, the
    fallback's included. *)
Lemma generate_onboarding_plan_text_returns (name role : pyval)
    (start_date : option string) (w : World) :
  exists text w', generate_onboarding_plan_text name role start_date w = (inr text, w').
Proof.
  unfold generate_onboarding_plan_text.
  destruct client_configured; simpl; [|by eexists _, _].
  unfold try_except, bind, ret.
  destruct (plan_responses_create _ w) as [[e|text] w1]; [|by eexists _, _].
  destruct (is_TypeError e); [|by eexists _, _].
  destruct (plan_chat_create _ w1) as [[e'|text] w2]; by eexists _, _.
Qed.

(** X13.  The plan generator always returns, whatever its provider calls
    do.  Without a configured client it calls nothing; with one, the text is
    what the first call answered, stripped, when that call answers. *)
Theorem generate_onboarding_plan_text_outcomes (name role : pyval)
    (start_date : option string) (w : World) :
  exists text w',
    generate_onboarding_plan_text name role start_date w = (inr text, w') /\
    (client_configured = false -> w' = w) /\
    (client_configured = true ->
     forall output_text w1,
       plan_responses_create (plan_prompt name role start_date) w
         = (inr output_text, w1) ->
       text = strip output_text /\ w' = w1).
Proof.
  unfold generate_onboarding_plan_text.
  destruct client_configured; cbn [negb].
  - unfold try_except, bind, ret.
    destruct (plan_responses_create _ w) as [[e|text] w1].
    + destruct (is_TypeError e).
      * destruct (plan_chat_create _ w1) as [[e'|text] w2]; eexists _, _;
          (split; [reflexivity|]); (split; [done|]); intros _ ? ? [=].
      * eexists _, _. split; [reflexivity|]. split; [done|]. intros _ ? ? [=].
    + eexists _, _. split; [reflexivity|]. split; [done|].
      by intros _ ? ? [= <- <-].
  - eexists _, _. split; [reflexivity|]. split; [done|]. intros [=].
Qed.

(** *** The guessed address *)

Lemma keep_username_chars_lower (s : string) :
  keep_username_chars (lower s) = lower (keep_username_chars s).
Proof.
  induction s as [|c s IH]; [done|]. cbn [lower keep_username_chars].
  assert (Hc : (is_alpha (lower_char c) || is_digit (lower_char c)
                || Ascii.eqb (lower_char c) "-" || Ascii.eqb (lower_char c) "_")
               = (is_alpha c || is_digit c || Ascii.eqb c "-" || Ascii.eqb c "_")).
  { destruct c as [[] [] [] [] [] [] [] []]; reflexivity. }
  rewrite Hc, IH.
  by destruct (is_alpha c || is_digit c || Ascii.eqb c "-" || Ascii.eqb c "_").
Qed.

Lemma keep_username_chars_idemp (s : string) :
  keep_username_chars (keep_username_chars s) = keep_username_chars s.
Proof.
  induction s as [|c s IH]; [done|]. cbn [keep_username_chars].
  destruct (is_alpha c || is_digit c || Ascii.eqb c "-" || Ascii.eqb c "_") eqn:E;
    [|done].
  cbn [keep_username_chars]. by rewrite E, IH.
Qed.

Lemma guess_email_from_filename_nonempty (filename : pyval) :
  truthy (guess_email_from_filename filename) = true.
Proof.
  unfold guess_email_from_filename, str_or.
  destruct (truthy (lower (keep_username_chars _))) eqn:E; [|done].
  by destruct (lower (keep_username_chars _)).
Qed.

(** X12.  Whatever the file name is, the guessed address is a user name
    followed by the example.com domain, where the user name is not empty, is
    in lower case, and holds only letters, digits, hyphens and
    underscores. *)
Theorem guess_email_from_filename_shape (filename : pyval) :
  exists username,
    guess_email_from_filename filename = username +:+ "@example.com" /\
    truthy username = true /\
    lower username = username /\
    keep_username_chars username = username.
Proof.
  unfold guess_email_from_filename, str_or.
  set (u := split_head "." (split_head "@" (py_str filename))).
  destruct (truthy (lower (keep_username_chars u))) eqn:E.
  - exists (lower (keep_username_chars u)). split; [done|]. split; [done|].
    split; [apply QueryBoxFacts.lower_idemp|].
    by rewrite keep_username_chars_lower, keep_username_chars_idemp.
  - by exists "candidate"%string.
Qed.

(** *** What a call does, item by item *)


(** The item passes the verdict test: its verdict, after string
    conversion, is a text that [str.upper] takes to PASS, which is PASS up to
    letter case, or pa and a sharp s up to letter case. *)
Definition selected (item : pydict) : Prop :=
  PyObj.upper_equals_PASS
    (py_str (PyDict.get_default "verdict" (PStr "") item)).


Section Run.

Variable default_start_date : option string.
Variable send_email : bool.
Variable email_subject_template email_body_template : option string.

Abbreviation body_of :=
  (build_entry default_start_date send_email
     email_subject_template email_body_template).

(** [processes items w entries w']: from world [w], walking [items] in
    order, an item that is not selected leaves no entry and no effect, a
    selected item whose body returns leaves the entry it built, a selected
    item whose body raises leaves the error entry for what was raised. *)
Inductive processes : list pydict -> World -> list pydict -> World -> Prop :=
| processes_nil w : processes [] w [] w
| processes_skip item items w entries w' :
    ~ selected item ->
    processes items w entries w' ->
    processes (item :: items) w entries w'
| processes_built item items w entry w1 entries w' :
    selected item ->
    body_of item w = (inr entry, w1) ->
    processes items w1 entries w' ->
    processes (item :: items) w (entry :: entries) w'
| processes_failed item items w e w1 entries w' :
    selected item ->
    body_of item w = (inl e, w1) ->
    processes items w1 entries w' ->
    processes (item :: items) w (error_entry item e :: entries) w'.

Lemma verdict_test_iff (item : pydict) :
  eqb_points (upper (py_str (PyDict.get_default "verdict" (PStr "") item)))
             (points "PASS") = true
  <-> selected item.
Proof. apply PyObj.upper_is_PASS. Qed.

Lemma loop_body_skip (processed : list pydict) (item : pydict) (w : World) :
  ~ selected item ->
  loop_body default_start_date send_email email_subject_template
    email_body_template processed item w = (inr processed, w).
Proof.
  intros Hsel. unfold loop_body, onboard_item.
  destruct (eqb_points _ (points "PASS")) eqn:E; [by apply verdict_test_iff in E|]. done.
Qed.

Lemma loop_body_selected (processed : list pydict) (item : pydict) (w : World) :
  selected item ->
  loop_body default_start_date send_email email_subject_template
    email_body_template processed item w =
  match body_of item w with
  | (inr entry, w1) => (inr (processed ++ [entry]), w1)
  | (inl e, w1) => (inr (processed ++ [error_entry item e]), w1)
  end.
Proof.
  intros Hsel%verdict_test_iff. unfold loop_body, onboard_item.
  rewrite Hsel. cbn [negb]. unfold try_except, bind, ret.
  by destruct (body_of item w) as [[e|entry] w1].
Qed.

Lemma loop_runs (items : list pydict) :
  forall processed w,
  exists entries w',
    for_each (loop_body default_start_date send_email email_subject_template
                email_body_template) items processed w
      = (inr (processed ++ entries), w') /\
    processes items w entries w'.
Proof.
  induction items as [|item items IH]; intros processed w.
  - exists [], w. simpl. rewrite app_nil_r. split; [done | constructor].
  - rewrite for_each_cons. destruct (decide (selected item)) as [Hsel|Hsel].
    + rewrite (loop_body_selected _ _ _ Hsel).
      destruct (body_of item w) as [[e|entry] w1] eqn:Hbody.
      * destruct (IH (processed ++ [error_entry item e]) w1) as (es & w' & -> & Hp).
        exists (error_entry item e :: es), w'. rewrite <- app_assoc.
        split; [done|]. by eapply processes_failed.
      * destruct (IH (processed ++ [entry]) w1) as (es & w' & -> & Hp).
        exists (entry :: es), w'. rewrite <- app_assoc.
        split; [done|]. by eapply processes_built.
    + rewrite (loop_body_skip _ _ _ Hsel).
      destruct (IH processed w) as (es & w' & -> & Hp).
      exists es, w'. split; [done|]. by constructor.
Qed.

Lemma processes_length (items : list pydict) (w w' : World) (entries : list pydict) :
  processes items w entries w' -> length entries = length (filter selected items).
Proof.
  induction 1 as [|item items w es w' Hsel _ IH
                   |item items w entry w1 es w' Hsel _ _ IH
                   |item items w e w1 es w' Hsel _ _ IH]; simpl.
  - done.
  - by rewrite filter_cons_False.
  - rewrite filter_cons_True by done. simpl. by rewrite IH.
  - rewrite filter_cons_True by done. simpl. by rewrite IH.
Qed.


(** *** Entries *)

Definition entry_keys : list string :=
  ["filename"; "name"; "email"; "role"; "plan"; "email_status"; "status"].

(** What an entry built for [item] holds. *)
Definition built_for (item entry : pydict) : Prop :=
  map fst entry = entry_keys /\
  PyDict.get "filename" entry
    = Some (PyDict.get_default "filename" (PStr "unknown_file") item) /\
  (exists email,
     PyDict.get "email" entry = Some email /\
     PyObj.truthy email = true /\
     (PyObj.truthy (get "email" item) = true -> email = get "email" item)) /\
  (exists status,
     PyDict.get "status" entry = Some (PStr status) /\
     if send_email
     then status = "email_sent"%string \/ status = "email_failed"%string
     else status = "plan_generated"%string /\
          PyDict.get "email_status" entry = Some PNone).

Lemma bind_returns_inv {A B : Type} (c : M A) (k : A -> M B) (w w' : World) (b : B) :
  bind c k w = (inr b, w') ->
  exists a w1, c w = (inr a, w1) /\ k a w1 = (inr b, w').
Proof.
  unfold bind. destruct (c w) as [[e|a] w1]; [done|]. intros H. by exists a, w1.
Qed.

(** X15.  An entry that was built for an item has the seven keys, in
    their order; its filename is the item's (or unknown_file); its email is
    never empty, and is the item's own email when the item has one; with
    sending on, its status is email_sent or email_failed, and with sending
    off it is plan_generated and the email status is None. *)
Theorem build_entry_built_for (item entry : pydict) (w w' : World) :
  body_of item w = (inr entry, w') -> built_for item entry.
Proof.
  unfold build_entry. cbv zeta. intros H.
  apply bind_returns_inv in H as (name_guess & w1 & _ & H).
  apply bind_returns_inv in H as (email0 & w2 & Hemail & H).
  apply bind_returns_inv in H as (plan_text & w3 & _ & H).
  apply bind_returns_inv in H as (body & w4 & _ & H).
  apply bind_returns_inv in H as ([email_status status] & w5 & Hsent & H).
  injection H as <- <-. unfold built_for.
  split; [reflexivity|]. split; [reflexivity|]. split.
  - eexists. split; [reflexivity|]. split.
    + destruct (PyObj.truthy email0) eqn:E; cbn [negb]; [done|].
      apply guess_email_from_filename_nonempty.
    + intros Ht. rewrite Ht in Hemail. injection Hemail as <- _.
      by rewrite Ht.
  - exists status. split; [reflexivity|]. destruct send_email.
    + apply bind_returns_inv in Hsent as (send_result & w6 & _ & Hsent).
      injection Hsent as _ <- _.
      destruct (PyObj.truthy (get "ok" send_result)); auto.
    + injection Hsent as <- <- _. done.
Qed.

Lemma for_each_selected (items : list pydict) :
  forall processed w,
    for_each (loop_body default_start_date send_email email_subject_template
                email_body_template) (filter selected items) processed w
    = for_each (loop_body default_start_date send_email email_subject_template
                  email_body_template) items processed w.
Proof.
  induction items as [|item items IH]; intros processed w; [done|].
  destruct (decide (selected item)) as [Hsel|Hsel].
  - rewrite filter_cons_True by done. rewrite !for_each_cons.
    destruct (loop_body _ _ _ _ processed item w) as [[e|st] w1]; [done|]. apply IH.
  - rewrite filter_cons_False by done. rewrite for_each_cons.
    rewrite (loop_body_skip _ _ _ Hsel). apply IH.
Qed.

(** X14.  Handing over only the PASS rows, as the onboarding page does,
    changes nothing: the call on the selected rows alone gives the entries,
    and has the effects, of the call on all the rows. *)
Theorem onboard_selected_candidates_prefiltered (screening_results : list pydict)
    (w : World) :
  onboard_selected_candidates (filter selected screening_results)
    default_start_date send_email email_subject_template email_body_template w
  = onboard_selected_candidates screening_results
      default_start_date send_email email_subject_template email_body_template w.
Proof. unfold onboard_selected_candidates. apply for_each_selected. Qed.

End Run.

End Agent.

(** *** A call *)

Definition no_match (_ : string) : option string := None.
(** A [str.title] that knows one name. *)
Definition scripted_title (s : string) : string :=
  if String.eqb s "ada lovelace" then "Ada Lovelace" else s.
Definition plain_format (t : string) (_ : list (string * pyval)) : exn + string := inr t.
Definition silent (_ : string) : M unit string := raise (Exception "no provider").
Definition smtp_ok (_ : pyval) (_ _ : string) : M unit pydict := ret [("ok", PBool true)].
Definition nan_repr (_ : float) : string := "nan".
Definition no_repr (_ : pyval) : string := "[]".

Definition candidates : list pydict :=
  [ [("filename", PStr "ada_lovelace.pdf"); ("verdict", PStr "PASS")];
    [("filename", PStr "b.pdf"); ("verdict", PStr "FAIL")];
    [("filename", PNone); ("verdict", PStr "pass")];
    [("filename", PStr "d.pdf")] ].

Definition demo_call : M unit (list pydict) :=
  onboard_selected_candidates unit nan_repr no_repr no_match scripted_title plain_format false
    silent silent smtp_ok candidates None true None None.

Example demo_call_entries :
  exists processed,
    demo_call tt = (inr processed, tt) /\
    map (PyDict.get "status") processed
      = [Some (PStr "email_sent"); Some (PStr "error")] /\
    map (PyDict.get "name") processed = [Some (PStr "Ada Lovelace"); None] /\
    map (PyDict.get "email") processed
      = [Some (PStr "ada_lovelace@example.com"); None] /\
    map (PyDict.get "filename") processed
      = [Some (PStr "ada_lovelace.pdf"); Some PNone].
Proof. eexists. split; [vm_compute; reflexivity|]. repeat split. Qed.

(** The entry built for the first candidate. *)
Definition ada : pydict :=
  [("filename", PStr "ada_lovelace.pdf"); ("verdict", PStr "PASS")].

Definition ada_entry : pydict :=
  Eval vm_compute in
    match build_entry unit nan_repr no_repr no_match scripted_title plain_format false
            silent silent smtp_ok None true None None ada tt with
    | (inr entry, _) => entry
    | (inl _, _) => []
    end.

Lemma build_entry_built_for_ada : built_for true ada ada_entry.
Proof.
  apply (build_entry_built_for unit nan_repr no_repr no_match scripted_title plain_format false
           silent silent smtp_ok None true None None ada ada_entry tt tt).
  vm_compute. reflexivity.
Defined.



End Onboarding.

(** ** [Agents/onboarding_agent.py]: the SMTP sender *)

Module Smtp.
Import PyStr Effects.

Section Sender.

Variable World : Type.
Local Abbreviation M := (Effects.M World).

Variable float_repr : float -> string.
Variable container_repr : pyval -> string.
Abbreviation py_str := (PyObj.py_str float_repr container_repr).

(** [os.getenv] on the environment of the process. *)
Variable getenv : string -> option string.
(** [int(s)] on a string. *)
Variable int_of_str : string -> exn + Z.
(** The body of the [try]: the connection to host and port, STARTTLS, the
    login when user and password are both set, [sendmail] from the sender to
    the recipient with subject and text, and [quit]. *)
Variable smtp_session :
  string -> Z -> option string -> option string -> option string ->
  pyval -> string -> string -> M unit.
(** [traceback.format_exc()] in the handler. *)
Variable format_exc : exn -> string.

Definition not_configured : pydict :=
  [("ok", PBool false); ("error", PStr "SMTP host/port not configured.")].

(** [int(smtp_port or os.getenv("SMTP_PORT", 587))] with no port passed. *)
Definition port_from_env : exn + Z :=
  match getenv "SMTP_PORT" with
  | Some s => int_of_str s
  | None => inr 587
  end.

(** The call with the defaults: host, port, user, password and sender all
    come from the environment, and TLS is on. *)
Definition send_email_smtp (to_email : pyval) (subject body_text : string) : M pydict :=
  let smtp_host := getenv "SMTP_HOST" in
  smtp_port <- lift port_from_env ;;
  let smtp_user := getenv "SMTP_USER" in
  let smtp_pass := getenv "SMTP_PASS" in
  let from_email :=
    match getenv "FROM_EMAIL" with
    | Some s => if truthy s then Some s else smtp_user
    | None => smtp_user
    end in
  match smtp_host with
  | Some host =>
      if negb (truthy host) || (smtp_port =? 0) then ret not_configured
      else
        try_except
          (_ <- smtp_session host smtp_port smtp_user smtp_pass from_email
                  to_email subject body_text ;;
           ret [("ok", PBool true);
                ("message", PStr ("Email sent to " +:+ py_str to_email))])
          (fun _ => true)
          (fun e => ret [("ok", PBool false);
                         ("error", PStr (str_of_exn e));
                         ("trace", PStr (format_exc e))])
  | None => ret not_configured
  end.

(** The sender is told where to connect. *)
Definition configured (host : string) (port : Z) : Prop :=
  getenv "SMTP_HOST" = Some host /\ truthy host = true /\
  port_from_env = inr port /\ port <> 0.

(** X16.  With the defaults, the sender raises exactly when SMTP_PORT is
    set to a text that is not an integer, and then before anything is sent;
    with a port that reads but no host, an empty host or port 0 it answers
    that SMTP is not configured, and opens no session; otherwise it opens
    one session and returns: ok is true exactly when the session went
    through, and the error of a failed session is in the answer. *)
Theorem send_email_smtp_outcomes (to_email : pyval) (subject body_text : string)
    (w : World) :
  (forall e, port_from_env = inl e ->
     send_email_smtp to_email subject body_text w = (inl e, w)) /\
  (forall port, port_from_env = inr port ->
     (forall host, ~ configured host port) ->
     send_email_smtp to_email subject body_text w = (inr not_configured, w)) /\
  (forall host port, configured host port ->
     exists answer w',
       send_email_smtp to_email subject body_text w = (inr answer, w') /\
       match smtp_session host port (getenv "SMTP_USER") (getenv "SMTP_PASS")
               (match getenv "FROM_EMAIL" with
                | Some s => if truthy s then Some s else getenv "SMTP_USER"
                | None => getenv "SMTP_USER"
                end) to_email subject body_text w with
       | (inr _, w1) =>
           w' = w1 /\ PyDict.get "ok" answer = Some (PBool true)
       | (inl e, w1) =>
           w' = w1 /\ PyDict.get "ok" answer = Some (PBool false) /\
           PyDict.get "error" answer = Some (PStr (str_of_exn e))
       end).
Proof.
  unfold send_email_smtp, bind, lift, ret, raise. repeat split.
  - intros e ->. done.
  - intros port Hport Hno. rewrite Hport.
    destruct (getenv "SMTP_HOST") as [host|] eqn:Hh; [|done].
    destruct (truthy host) eqn:Ht; [|done]. cbn [negb orb].
    destruct (port =? 0) eqn:Hp; [done|]. exfalso. apply (Hno host).
    unfold configured. apply Z.eqb_neq in Hp. done.
  - intros host port (Hh & Ht & Hport & Hp%Z.eqb_neq).
    rewrite Hh, Hport, Ht, Hp. cbn [negb orb].
    unfold try_except, bind, ret.
    destruct (smtp_session _ _ _ _ _ _ _ _ w) as [[e|[]] w1]; by eexists _, _.
Qed.

End Sender.

(** *** The onboarding call with this sender *)

Section Mailing.

Variable World : Type.
Local Abbreviation M := (Effects.M World).

Variable float_repr : float -> string.
Variable container_repr : pyval -> string.
Variable search_email : string -> option string.
Variable str_title : string -> string.
Variable str_format : string -> list (string * pyval) -> exn + string.
Variable client_configured : bool.
Variable plan_responses_create : string -> M string.
Variable plan_chat_create : string -> M string.
Variable getenv : string -> option string.
Variable int_of_str : string -> exn + Z.
Variable smtp_session :
  string -> Z -> option string -> option string -> option string ->
  pyval -> string -> string -> M unit.
Variable format_exc : exn -> string.

Variable default_start_date : option string.
Variable email_subject_template email_body_template : option string.

Abbreviation sender :=
  (send_email_smtp World float_repr container_repr getenv int_of_str
     smtp_session format_exc).

(** [onboard_selected_candidates(..., send_email=True)]. *)
Abbreviation mail_candidates :=
  (fun screening_results =>
     Onboarding.onboard_selected_candidates World float_repr container_repr
       search_email str_title str_format client_configured plan_responses_create
       plan_chat_create sender screening_results default_start_date true
       email_subject_template email_body_template).

Abbreviation mail_entry :=
  (Onboarding.build_entry World float_repr container_repr search_email str_title
     str_format client_configured plan_responses_create plan_chat_create
     sender default_start_date true email_subject_template email_body_template).

Abbreviation mail_processes :=
  (Onboarding.processes World float_repr container_repr search_email str_title
     str_format client_configured plan_responses_create plan_chat_create
     sender default_start_date true email_subject_template email_body_template).

(** An entry built with sending on carries the sender's answer. *)
Lemma mail_entry_answer (item entry : pydict) (w w' : World) :
  mail_entry item w = (inr entry, w') ->
  exists to_email subject body_text w1 answer,
    sender to_email subject body_text w1 = (inr answer, w') /\
    PyDict.get "email_status" entry = Some (PDict answer) /\
    PyDict.get "status" entry
      = Some (PStr (if PyObj.truthy (Onboarding.get "ok" answer)
                    then "email_sent" else "email_failed")).
Proof.
  unfold Onboarding.build_entry. cbv zeta. intros H.
  apply Onboarding.bind_returns_inv in H as (name_guess & w1 & _ & H).
  apply Onboarding.bind_returns_inv in H as (email0 & w2 & _ & H).
  apply Onboarding.bind_returns_inv in H as (plan_text & w3 & _ & H).
  apply Onboarding.bind_returns_inv in H as (body & w4 & _ & H).
  apply Onboarding.bind_returns_inv in H as ([email_status status] & w5 & Hsent & H).
  injection H as <- <-.
  apply Onboarding.bind_returns_inv in Hsent as (answer & w6 & Hsend & Hsent).
  injection Hsent as <- <- <-.
  eexists _, _, _, _, answer. split; [exact Hsend|]. split; reflexivity.
Qed.

Definition status_of (entry : pydict) : option pyval := PyDict.get "status" entry.

(** X17.  When SMTP_PORT is set to a text that is not an integer, a call
    with sending on still returns, with one entry per selected row, and
    every entry is an error entry: no plan is handed back and no mail is
    sent. *)
Theorem unreadable_port_fails_every_candidate (screening_results : list pydict)
    (w : World) (e : exn) :
  port_from_env getenv int_of_str = inl e ->
  exists processed w',
    mail_candidates screening_results w = (inr processed, w') /\
    length processed
      = length (filter (Onboarding.selected float_repr container_repr)
                  screening_results) /\
    Forall (fun entry => status_of entry = Some (PStr "error")) processed.
Proof.
  intros Hport.
  destruct (Onboarding.loop_runs World float_repr container_repr search_email str_title
              str_format client_configured plan_responses_create plan_chat_create
              sender default_start_date true email_subject_template
              email_body_template screening_results [] w)
    as (entries & w' & Hrun & Hp).
  exists entries, w'. split; [exact Hrun|].
  split; [by eapply Onboarding.processes_length|].
  clear Hrun. induction Hp as [|item items w0 es w1 Hsel _ IH
                   |item items w0 entry w1 es w2 Hsel Hbody _ IH
                   |item items w0 e' w1 es w2 Hsel _ _ IH].
  - constructor.
  - apply IH.
  - apply mail_entry_answer in Hbody as (t & sj & b & w3 & answer & Hsend & _).
    destruct (send_email_smtp_outcomes World float_repr container_repr getenv
                int_of_str smtp_session format_exc t sj b w3) as (Hraise & _).
    rewrite (Hraise e Hport) in Hsend. done.
  - constructor; [reflexivity | apply IH].
Qed.

(** X18.  When the port reads but the sender has no host to connect to (or
    the port is 0), a call with sending on marks no candidate as sent: every
    entry is an error entry or has status email_failed with the
    not-configured answer as its email status. *)
Theorem missing_host_sends_nothing (screening_results : list pydict)
    (w : World) (port : Z) :
  port_from_env getenv int_of_str = inr port ->
  (forall host, ~ configured getenv int_of_str host port) ->
  exists processed w',
    mail_candidates screening_results w = (inr processed, w') /\
    Forall (fun entry =>
              status_of entry = Some (PStr "error") \/
              (status_of entry = Some (PStr "email_failed") /\
               PyDict.get "email_status" entry = Some (PDict not_configured)))
           processed.
Proof.
  intros Hport Hno.
  destruct (Onboarding.loop_runs World float_repr container_repr search_email str_title
              str_format client_configured plan_responses_create plan_chat_create
              sender default_start_date true email_subject_template
              email_body_template screening_results [] w)
    as (entries & w' & Hrun & Hp).
  exists entries, w'. split; [exact Hrun|].
  clear Hrun. induction Hp as [|item items w0 es w1 Hsel _ IH
                   |item items w0 entry w1 es w2 Hsel Hbody _ IH
                   |item items w0 e' w1 es w2 Hsel _ _ IH].
  - constructor.
  - apply IH.
  - constructor; [|apply IH]. right.
    apply mail_entry_answer in Hbody as (t & sj & b & w3 & answer & Hsend & Hes & Hst).
    destruct (send_email_smtp_outcomes World float_repr container_repr getenv
                int_of_str smtp_session format_exc t sj b w3) as (_ & Hoff & _).
    rewrite (Hoff port Hport Hno) in Hsend. injection Hsend as <- _.
    split; [exact Hst | exact Hes].
  - constructor; [left; reflexivity | apply IH].
Qed.

End Mailing.

(** *** Two environments *)

(** SMTP_PORT holds a word. *)
Definition word_port_env (k : string) : option string :=
  if String.eqb k "SMTP_PORT" then Some "smtp"%string
  else if String.eqb k "SMTP_HOST" then Some "mail.example.com"%string
  else None.

(** Nothing is set. *)
Definition empty_env (_ : string) : option string := None.

Definition no_int (_ : string) : exn + Z :=
  inl (ValueError "invalid literal for int() with base 10").

Definition refused (_ : string) (_ : Z) (_ _ _ : option string) (_ : pyval)
    (_ _ : string) : Effects.M unit unit :=
  raise (Exception "Connection refused").

Definition no_trace (_ : exn) : string := "Traceback".

Lemma unreadable_port_fails_every_candidate_demo :
  exists processed w',
    Onboarding.onboard_selected_candidates unit Onboarding.nan_repr
      Onboarding.no_repr Onboarding.no_match Onboarding.scripted_title Onboarding.plain_format false
      Onboarding.silent Onboarding.silent
      (send_email_smtp unit Onboarding.nan_repr Onboarding.no_repr word_port_env
         no_int refused no_trace)
      Onboarding.candidates None true None None tt = (inr processed, w') /\
    length processed
      = length (filter (Onboarding.selected Onboarding.nan_repr Onboarding.no_repr)
                  Onboarding.candidates) /\
    Forall (fun entry => status_of entry = Some (PStr "error")) processed.
Proof.
  exact (unreadable_port_fails_every_candidate unit Onboarding.nan_repr
           Onboarding.no_repr Onboarding.no_match Onboarding.scripted_title Onboarding.plain_format false
           Onboarding.silent Onboarding.silent word_port_env no_int refused
           no_trace None None None Onboarding.candidates tt
           (ValueError "invalid literal for int() with base 10") eq_refl).
Defined.

Lemma empty_env_not_configured (host : string) :
  ~ configured empty_env no_int host 587.
Proof. intros (H & _). discriminate H. Qed.

Lemma missing_host_sends_nothing_demo :
  exists processed w',
    Onboarding.onboard_selected_candidates unit Onboarding.nan_repr
      Onboarding.no_repr Onboarding.no_match Onboarding.scripted_title Onboarding.plain_format false
      Onboarding.silent Onboarding.silent
      (send_email_smtp unit Onboarding.nan_repr Onboarding.no_repr empty_env
         no_int refused no_trace)
      Onboarding.candidates None true None None tt = (inr processed, w') /\
    Forall (fun entry =>
              status_of entry = Some (PStr "error") \/
              (status_of entry = Some (PStr "email_failed") /\
               PyDict.get "email_status" entry = Some (PDict not_configured)))
           processed.
Proof.
  exact (missing_host_sends_nothing unit Onboarding.nan_repr
           Onboarding.no_repr Onboarding.no_match Onboarding.scripted_title Onboarding.plain_format false
           Onboarding.silent Onboarding.silent empty_env no_int refused
           no_trace None None None Onboarding.candidates tt 587 eq_refl
           empty_env_not_configured).
Defined.

End Smtp.

(** ** [Agents/resume_screening_app.py]: the session of the HR page *)

Module HRManager.
Import PyStr Effects Screening.

(** The two keys the page keeps in [st.session_state]. *)
Record Session : Type :=
  { results_key : option (list pydict); last_role_key : option string }.

(** ["results" not in st.session_state or
     st.session_state.get("last_role") != role]. *)
Definition must_screen (role : string) (ss : Session) : bool :=
  match results_key ss with
  | None => true
  | Some _ =>
      match last_role_key ss with
      | Some r => negb (String.eqb r role)
      | None => true
      end
  end.

(** [if uploaded_files and role]. *)
Definition ready (role : string) (uploaded_files : list UploadedFile) : bool :=
  match uploaded_files with [] => false | _ :: _ => truthy role end.

Section Page.

Variable World : Type.
Local Abbreviation M := (Effects.M World).
Variable responses_create : Request -> M string.
Variable chat_completions_create : Request -> M string.
Variable float_repr : float -> string.
Variable json_loads : string -> exn + pyval.
Variable pdfplumber_pages : UploadedFile -> World -> list (option string) * World.
Variable ocr_pages : UploadedFile -> World -> option (list string) * World.
Variable docx_paragraphs : UploadedFile -> M (list string).

Abbreviation screen_files :=
  (screen World responses_create chat_completions_create float_repr json_loads
     pdfplumber_pages ocr_pages docx_paragraphs).

(** One run of the HR branch of the page, up to the point where the
    results are read back from the session: the session after it.  A run
    that raises leaves the session as it was. *)
Definition hr_run (role : string) (uploaded_files : list UploadedFile)
    (ss : Session) : M Session :=
  if ready role uploaded_files then
    if must_screen role ss then
      results <- screen_files role uploaded_files ;;
      ret {| results_key := Some results; last_role_key := Some role |}
    else ret ss
  else ret ss.

(** [st.session_state.get("results", [])]. *)
Definition shown (ss : Session) : list pydict :=
  match results_key ss with Some results => results | None => [] end.

(** X11.  Once a run for a role has returned with files uploaded, the
    session holds results for that role, and a further run for the same role
    changes nothing and calls nothing, whatever files are uploaded then: a
    changed upload is not screened until the role changes or the session is
    reset.  A run for another role screens again. *)
Theorem hr_run_reuses_results (role : string) (files files' : list UploadedFile)
    (ss ss1 : Session) (w w1 : World) :
  ready role files = true ->
  hr_run role files ss w = (inr ss1, w1) ->
  (exists results, results_key ss1 = Some results) /\
  last_role_key ss1 = Some role /\
  hr_run role files' ss1 w1 = (inr ss1, w1) /\
  (forall role', role' <> role -> ready role' files' = true ->
     hr_run role' files' ss1 w1
     = (results <- screen_files role' files' ;;
        ret {| results_key := Some results; last_role_key := Some role' |}) w1).
Proof.
  intros Hready. unfold hr_run. rewrite Hready. intros Hrun.
  assert (Hkeep : forall s : Session,
            (exists results, results_key s = Some results) ->
            last_role_key s = Some role ->
            must_screen role s = false /\
            forall role', role' <> role -> must_screen role' s = true).
  { intros s (r & Hr) Hl. unfold must_screen. rewrite Hr, Hl. split.
    - by rewrite String.eqb_refl.
    - intros role' Hne. apply String.eqb_neq in Hne.
      rewrite String.eqb_sym. by rewrite Hne. }
  assert (Hres : (exists results, results_key ss1 = Some results) /\
                 last_role_key ss1 = Some role).
  { destruct (must_screen role ss) eqn:Hm.
    - unfold bind, ret in Hrun.
      destruct (screen_files role files w) as [[e|r] w2]; [done|].
      injection Hrun as <- <-. simpl. eauto.
    - injection Hrun as <- <-. unfold must_screen in Hm.
      destruct (results_key ss) as [r|]; [|done].
      destruct (last_role_key ss) as [r0|]; [|done].
      apply negb_false_iff, String.eqb_eq in Hm as ->. eauto. }
  destruct Hres as [Hr Hl]. destruct (Hkeep ss1 Hr Hl) as [Hsame Hother].
  split; [done|]. split; [done|]. split.
  - rewrite Hsame. by destruct (ready role files').
  - intros role' Hne Hready'. by rewrite Hready', (Hother role' Hne).
Qed.

End Page.

(** *** A session *)

Definition fresh : Session := {| results_key := None; last_role_key := None |}.

Definition screened : Session :=
  {| results_key := Some demo_results; last_role_key := Some "Proof Engineer"%string |}.

Lemma hr_run_reuses_results_demo :
  (exists results, results_key screened = Some results) /\
  last_role_key screened = Some "Proof Engineer"%string /\
  hr_run Script scripted_responses scripted_chat tiny_float_repr tiny_loads
    one_page no_ocr one_paragraph "Proof Engineer" [file_c] screened spent_world
    = (inr screened, spent_world) /\
  (forall role', role' <> "Proof Engineer"%string -> ready role' [file_c] = true ->
     hr_run Script scripted_responses scripted_chat tiny_float_repr tiny_loads
       one_page no_ocr one_paragraph role' [file_c] screened spent_world
     = (results <- demo_screen role' [file_c] ;;
        ret {| results_key := Some results; last_role_key := Some role' |}) spent_world).
Proof.
  exact (hr_run_reuses_results Script scripted_responses scripted_chat
           tiny_float_repr tiny_loads one_page no_ocr one_paragraph
           "Proof Engineer" demo_files [file_c] fresh screened
           demo_world spent_world eq_refl eq_refl).
Defined.

End HRManager.

(** ** [Agents/policy_agent.py] *)

Module Policy.
Import PyStr Effects.

Definition nl : string := String (ascii_of_N 10) "".

Definition not_found : string := "⚠️ Policy file not found.".

(** The f-string of the prompt. *)
Definition prompt (policy_text question : string) : string :=
  nl +:+ "You are an HR policy assistant."
  +:+ nl +:+ "Refer only to this company policy text and answer truthfully."
  +:+ nl +:+ nl +:+ "Policy:"
  +:+ nl +:+ Json.dquote +:+ Json.dquote +:+ Json.dquote +:+ policy_text
  +:+ Json.dquote +:+ Json.dquote +:+ Json.dquote
  +:+ nl +:+ nl +:+ "Question: " +:+ question
  +:+ nl +:+ nl +:+ "If the answer isn’t covered, reply " +:+ Json.dquote
  +:+ "Not covered in current policy." +:+ Json.dquote +:+ nl.

Section Agent.

Variable World : Type.
Local Abbreviation M := (Effects.M World).

(** [os.path.exists] on the policy path. *)
Variable policy_exists : World -> bool.
(** [open(policy_path, "r")] and [f.read()]. *)
Variable read_policy : M string.
(** [client.responses.create(model, input=prompt, temperature)] and the
    [output_text] of what it returns. *)
Variable responses_create : string -> M string.

Definition answer_policy_question (question : string) : M string :=
  fun w =>
    if negb (policy_exists w) then (inr not_found, w)
    else
      (policy_text <- read_policy ;;
       try_except
         (output_text <- responses_create (prompt policy_text question) ;;
          ret (strip output_text))
         (fun _ => true)
         (fun e => ret ("Error answering policy: " +:+ str_of_exn e))) w.

(** X19.  Without a policy file the answer is the not-found message and
    nothing is read or called.  The function raises exactly when the file is
    there and reading it raises, and then with that error and before any
    provider call.  When the file was read, the function returns: the
    provider's text stripped, or, for a provider error, the text Error
    answering policy followed by the error's message. *)
Theorem answer_policy_question_outcomes (question : string) (w : World) :
  (policy_exists w = false ->
     answer_policy_question question w = (inr not_found, w)) /\
  (forall e w',
     answer_policy_question question w = (inl e, w') <->
     policy_exists w = true /\ read_policy w = (inl e, w')) /\
  (forall policy_text w1,
     policy_exists w = true ->
     read_policy w = (inr policy_text, w1) ->
     exists answer w',
       answer_policy_question question w = (inr answer, w') /\
       match responses_create (prompt policy_text question) w1 with
       | (inr output_text, w2) => answer = strip output_text /\ w' = w2
       | (inl e, w2) =>
           answer = "Error answering policy: " +:+ str_of_exn e /\ w' = w2
       end).
Proof.
  unfold answer_policy_question, try_except, bind, ret.
  split; [by intros ->|]. split.
  - intros e w'. destruct (policy_exists w); cbn [negb].
    + destruct (read_policy w) as [[e0|text] w1].
      * split; [by intros [= <- <-] | by intros [_ [= <- <-]]].
      * destruct (responses_create _ w1) as [[e1|out] w2];
          (split; [done | by intros [_ ?]]).
    + split; [done | by intros [? _]].
  - intros text w1 -> ->. cbn [negb].
    destruct (responses_create _ w1) as [[e1|out] w2]; by eexists _, _.
Qed.

End Agent.
End Policy.

(** ** [main.py]: the send loop of the bulk upload *)

Module BulkSend.
Import PyStr Effects BulkOnboarding.

(** [s.replace(' ', '')]. *)
Fixpoint remove_spaces (s : string) : string :=
  match s with
  | EmptyString => EmptyString
  | String c s' =>
      if Ascii.eqb c " " then remove_spaces s' else String c (remove_spaces s')
  end.

(** What the page shows after the send button. *)
(** Truth value of what [os.getenv] returned. *)
Definition opt_truthy (o : option string) : bool :=
  match o with Some s => truthy s | None => false end.

Inductive send_outcome : Type :=
| MissingCredentials
| Completed (success : list string) (fail : list (string * string))
| ProcessingError (msg : string).

Section Loop.

Variable World : Type.
Local Abbreviation M := (Effects.M World).

(** [EMAIL_USER] and [EMAIL_PASS] as read when the page was loaded. *)
Variable email_user email_pass : option string.
(** The template of the text area, and [start_date.strftime] and
    [start_time.strftime] of the two pickers. *)
Variable email_template date_text time_text : string.
(** [email_template.format(candidate=, date=, time=)]. *)
Variable str_format : string -> list (string * pyval) -> exn + string.
(** The [with smtplib.SMTP(...)] block: connect, STARTTLS, login, send the
    message to the recipient with the text. *)
Variable smtp_send : pyval -> string -> M unit.
(** [log_onboarding(name, email, date, time, status, "Bulk")]. *)
Variable log_onboarding : string -> pyval -> string -> M unit.

(** [row["filename"].split(".")[0]]: the frame must have the column, and
    the cell must be a string. *)
Definition candidate_of (cols : list string) (row : pydict) : exn + string :=
  if negb (existsb (String.eqb "filename") cols) then inl (KeyError "'filename'")
  else
    match PyDict.get_default "filename" (PFloat nan) row with
    | PStr s => inr (split_head "." s)
    | _ => inl (AttributeError "object has no attribute 'split'")
    end.

(** [row["email"] if "email" in row else f"...@example.com"]. *)
Definition to_email_of (cols : list string) (row : pydict) (candidate : string) : pyval :=
  if existsb (String.eqb "email") cols
  then PyDict.get_default "email" (PFloat nan) row
  else PStr (remove_spaces (lower candidate) +:+ "@example.com").

(** The handler of the inner [try]. *)
Definition on_failure (candidate : string) (to_email : pyval) (e : exn)
    (success : list string) (fail : list (string * string))
    : M (list string * list (string * string)) :=
  _ <- log_onboarding candidate to_email ("Failed: " +:+ str_of_exn e) ;;
  ret (success, fail ++ [(candidate, str_of_exn e)]).

(** The body of the loop.  [success.append] comes before the log call of
    the [try], so a log call that raises leaves the candidate in [success]
    and hands its error to the handler. *)
Definition send_step (cols : list string)
    (st : list string * list (string * string)) (row : pydict)
    : M (list string * list (string * string)) :=
  let '(success, fail) := st in
  candidate <- lift (candidate_of cols row) ;;
  let to_email := to_email_of cols row candidate in
  formatted_msg <-
    lift (str_format email_template
            [("candidate", PStr candidate); ("date", PStr date_text);
             ("time", PStr time_text)]) ;;
  fun w =>
    match smtp_send to_email formatted_msg w with
    | (inr _, w1) =>
        match log_onboarding candidate to_email "Sent" w1 with
        | (inr _, w2) => (inr (success ++ [candidate], fail), w2)
        | (inl e, w2) => on_failure candidate to_email e (success ++ [candidate]) fail w2
        end
    | (inl e, w1) => on_failure candidate to_email e success fail w1
    end.

(** The send button on the frame of passed rows, inside the outer [try]. *)
Definition send_invitations (passed : DataFrame) : World -> send_outcome * World :=
  fun w =>
    if negb (opt_truthy email_user) || negb (opt_truthy email_pass)
    then (MissingCredentials, w)
    else
      match for_each (send_step (columns passed)) (rows passed) ([], []) w with
      | (inr (success, fail), w') => (Completed success fail, w')
      | (inl e, w') => (ProcessingError ("Error processing file: " +:+ str_of_exn e), w')
      end.

(** The log calls never raise. *)
Definition log_returns : Prop :=
  forall name email status w, exists w', log_onboarding name email status w = (inr tt, w').

(** What one turn of the loop adds to the two lists for [candidate]. *)
Inductive reported (candidate : string)
    : list string -> list (string * string) -> Prop :=
| reported_sent : reported candidate [candidate] []
| reported_failed msg : reported candidate [] [(candidate, msg)]
| reported_twice msg : reported candidate [candidate] [(candidate, msg)].

Lemma send_step_inv (cols : list string) (success : list string)
    (fail : list (string * string)) (row : pydict) (w w' : World)
    (success' : list string) (fail' : list (string * string)) :
  send_step cols (success, fail) row w = (inr (success', fail'), w') ->
  exists candidate s f,
    candidate_of cols row = inr candidate /\
    success' = success ++ s /\ fail' = fail ++ f /\
    reported candidate s f /\
    (log_returns -> (length s + length f = 1)%nat).
Proof.
  unfold send_step, bind, lift, ret, raise.
  destruct (candidate_of cols row) as [e|candidate]; [done|].
  destruct (str_format _ _) as [e|formatted_msg]; [done|].
  unfold on_failure, bind, ret.
  destruct (smtp_send _ _ w) as [[e|[]] w1].
  - destruct (log_onboarding _ _ _ w1) as [[e'|[]] w2]; [done|].
    intros [= <- <- <-]. exists candidate, [], [(candidate, str_of_exn e)].
    rewrite app_nil_r. repeat split; constructor.
  - destruct (log_onboarding candidate _ "Sent" w1) as [[e|[]] w2] eqn:Hlog.
    + destruct (log_onboarding _ _ _ w2) as [[e'|[]] w3]; [done|].
      intros [= <- <- <-]. exists candidate, [candidate], [(candidate, str_of_exn e)].
      repeat split; [constructor|].
      intros Hret. destruct (Hret candidate (to_email_of cols row candidate)
                               "Sent"%string w1) as (w4 & Hw4).
      congruence.
    + intros [= <- <- <-]. exists candidate, [candidate], [].
      rewrite app_nil_r. repeat split; constructor.
Qed.

Lemma send_loop_inv (cols : list string) (rs : list pydict) :
  forall success fail w success' fail' w',
    for_each (send_step cols) rs (success, fail) w = (inr (success', fail'), w') ->
    exists s f,
      success' = success ++ s /\ fail' = fail ++ f /\
      (length rs <= length s + length f <= 2 * length rs)%nat /\
      (forall c, c ∈ s \/ c ∈ map fst f ->
         exists row, row ∈ rs /\ candidate_of cols row = inr c) /\
      (forall row, row ∈ rs ->
         exists c, candidate_of cols row = inr c /\ (c ∈ s \/ c ∈ map fst f)) /\
      (log_returns -> (length s + length f = length rs)%nat).
Proof.
  induction rs as [|row rs IH]; intros success fail w success' fail' w'.
  - intros [= <- <- <-]. exists [], []. rewrite !app_nil_r.
    repeat split; simpl; try lia.
    + intros c [Hc|Hc]; by apply elem_of_nil in Hc.
    + intros r Hr. by apply elem_of_nil in Hr.
  - rewrite for_each_cons.
    destruct (send_step cols (success, fail) row w) as [[e|[s1 f1]] w1] eqn:Hstep;
      [done|].
    apply send_step_inv in Hstep as (c & s & f & Hc & -> & -> & Hrep & Hone).
    intros (s2 & f2 & -> & -> & Hlen & Hfrom & Hall & Hexact)%IH.
    exists (s ++ s2), (f ++ f2). rewrite !app_assoc. split; [done|]. split; [done|].
    rewrite !length_app, map_app. simpl.
    assert (Hsf : (1 <= length s + length f <= 2)%nat /\
                  (forall c', c' ∈ s \/ c' ∈ map fst f -> c' = c) /\
                  (c ∈ s \/ c ∈ map fst f)).
    { destruct Hrep; simpl; (split; [lia|]); split.
      all: try (intros c' [Hc'|Hc'];
                repeat (apply elem_of_cons in Hc' as [Hc'|Hc']); try done;
                by apply elem_of_nil in Hc').
      all: first [left; apply list_elem_of_here | right; apply list_elem_of_here]. }
    destruct Hsf as (Hsf & Honly & Hin).
    split; [lia|]. split; [|split].
    + intros c' Hc'.
      assert (Hcase : (c' ∈ s \/ c' ∈ map fst f) \/ (c' ∈ s2 \/ c' ∈ map fst f2)).
      { destruct Hc' as [[?|?]%elem_of_app|[?|?]%elem_of_app]; auto. }
      destruct Hcase as [H1|H2].
      * rewrite (Honly c' H1). exists row. split; [apply list_elem_of_here | done].
      * destruct (Hfrom c' H2) as (r & Hr & Hrc). exists r.
        split; [by apply list_elem_of_further | done].
    + intros r [->|Hr]%elem_of_cons.
      * exists c. split; [done|].
        destruct Hin as [?|?]; [left|right]; apply elem_of_app; by left.
      * destruct (Hall r Hr) as (c' & Hc' & Hin'). exists c'. split; [done|].
        destruct Hin' as [?|?]; [left|right]; apply elem_of_app; by right.
    + intros Hret. specialize (Hone Hret). specialize (Hexact Hret). lia.
Qed.

(** X20.  When the send loop runs to its end, every passed row is reported:
    its candidate name is in the success list or in the failure list, and
    the two lists name no one else.  A candidate can be in both, when the
    mail went out and the log call after it raised; when the log calls do not
    raise, each row is counted once, so the two counts add up to the number
    of passed rows. *)
Theorem send_loop_reports_every_row (passed : DataFrame) (w w' : World)
    (success : list string) (fail : list (string * string)) :
  send_invitations passed w = (Completed success fail, w') ->
  (length (rows passed) <= length success + length fail
     <= 2 * length (rows passed))%nat /\
  (forall c, c ∈ success \/ c ∈ map fst fail ->
     exists row, row ∈ rows passed /\ candidate_of (columns passed) row = inr c) /\
  (forall row, row ∈ rows passed ->
     exists c, candidate_of (columns passed) row = inr c /\
               (c ∈ success \/ c ∈ map fst fail)) /\
  (log_returns -> (length success + length fail = length (rows passed))%nat).
Proof.
  unfold send_invitations.
  destruct (negb (opt_truthy email_user) || negb (opt_truthy email_pass)); [done|].
  destruct (for_each _ _ _ w) as [[e|[s f]] w1] eqn:Hloop; [done|].
  intros [= <- <- <-].
  apply send_loop_inv in Hloop as (s' & f' & -> & -> & H). exact H.
Qed.

(** X21.  A passed row without a usable file name (no filename column, or
    a cell that is not a string) stops the loop: the page shows the
    processing error instead of the two lists, the rows before it have been
    handled (their mails are out), and the rows after it are not tried. *)
Theorem send_loop_stops_at_bad_filename (cols : list string)
    (pre post : list pydict) (row : pydict)
    (st : list string * list (string * string)) (w w1 : World) (e : exn) :
  opt_truthy email_user = true ->
  opt_truthy email_pass = true ->
  for_each (send_step cols) pre ([], []) w = (inr st, w1) ->
  candidate_of cols row = inl e ->
  send_invitations {| columns := cols; rows := pre ++ row :: post |} w
  = (ProcessingError ("Error processing file: " +:+ str_of_exn e), w1).
Proof.
  intros Hu Hp Hpre Hc. unfold send_invitations. rewrite Hu, Hp. cbn [negb orb].
  cbn [columns rows]. rewrite for_each_app, Hpre, for_each_cons.
  destruct st as [success fail]. unfold send_step, bind, lift, raise.
  by rewrite Hc.
Qed.

End Loop.

(** *** A send *)

(** The world counts the mails that went out. *)
Definition mail_out (_ : pyval) (_ : string) : Effects.M nat unit :=
  fun n => (inr tt, S n).
Definition log_ok (_ : string) (_ : pyval) (_ : string) : Effects.M nat unit := ret tt.

Definition passed_frame : DataFrame :=
  {| columns := columns sample_frame;
     rows := passed_rows nan_repr no_repr sample_frame |}.

Definition demo_send : DataFrame -> nat -> send_outcome * nat :=
  send_invitations nat (Some "hr@example.com"%string) (Some "secret"%string)
    "Dear {candidate}" "March 01, 2026" "10:00 AM" Onboarding.plain_format
    mail_out log_ok.

Lemma send_loop_reports_every_row_demo :
  (length (rows passed_frame) <= length ["a"; "c"]%string + length (@nil (string * string))
     <= 2 * length (rows passed_frame))%nat /\
  (forall c, c ∈ ["a"; "c"]%string \/ c ∈ map fst (@nil (string * string)) ->
     exists row, row ∈ rows passed_frame /\
                 candidate_of (columns passed_frame) row = inr c) /\
  (forall row, row ∈ rows passed_frame ->
     exists c, candidate_of (columns passed_frame) row = inr c /\
               (c ∈ ["a"; "c"]%string \/ c ∈ map fst (@nil (string * string)))) /\
  (log_returns nat log_ok ->
     (length ["a"; "c"]%string + length (@nil (string * string))
      = length (rows passed_frame))%nat).
Proof.
  exact (send_loop_reports_every_row nat (Some "hr@example.com"%string)
           (Some "secret"%string) "Dear {candidate}" "March 01, 2026" "10:00 AM"
           Onboarding.plain_format mail_out log_ok passed_frame 0%nat 2%nat
           ["a"; "c"]%string [] eq_refl).
Defined.

(** The second row has no file name. *)
Definition gap_rows : list pydict :=
  [ [("filename", PStr "a.pdf"); ("verdict", PStr "PASS")];
    [("verdict", PStr "PASS")];
    [("filename", PStr "c.pdf"); ("verdict", PStr "PASS")] ].

Lemma send_loop_stops_at_bad_filename_demo :
  demo_send {| columns := ["filename"; "verdict"]%string; rows := gap_rows |} 0%nat
  = (ProcessingError
       ("Error processing file: "
        +:+ str_of_exn (AttributeError "object has no attribute 'split'")),
     1%nat).
Proof.
  exact (send_loop_stops_at_bad_filename nat (Some "hr@example.com"%string)
           (Some "secret"%string) "Dear {candidate}" "March 01, 2026" "10:00 AM"
           Onboarding.plain_format mail_out log_ok ["filename"; "verdict"]%string
           [ [("filename", PStr "a.pdf"); ("verdict", PStr "PASS")] ]
           [ [("filename", PStr "c.pdf"); ("verdict", PStr "PASS")] ]
           [("verdict", PStr "PASS")]
           (["a"%string], []) 0%nat 1%nat
           (AttributeError "object has no attribute 'split'")
           eq_refl eq_refl eq_refl eq_refl).
Defined.

End BulkSend.
